(** * Coupon bot: the start-up command (cmd/root.go) and the redemption core

    The first part embeds [cmd/root.go]: the [Run] closure of [rootCmd],
    [initConfig] and [initLog].  The code talks to many collaborators (viper,
    the file system, the storage package, the xx network client); each call
    is a field of [World], an oracle that says what the call returns, and the
    code itself is a program in a small monad that threads the package
    globals, records every call in a trace and stops at the first
    [jww.FATAL.Panicf].

    The second part models the redemption core (storage adapter, request
    codec, redemption engine, listener adapter), whose code lives in the
    [coupons] and [storage] packages. *)

From Stdlib Require Import ZArith Ascii String List Permutation.
From stdpp Require Import base tactics option list gmap strings.

Local Open Scope string_scope.
Local Open Scope list_scope.

(** ** Go values shared by both parts *)

(** A Go [error], by its message. *)
Definition error := string.

(** A call that returns [(value, error)]. *)
Inductive result (A : Type) : Type :=
| Ok (a : A)
| Err (e : error).
Arguments Ok {A} a.
Arguments Err {A} e.

(** [strings.ToUpper] on the ASCII letters. *)
Definition upper_ascii (c : ascii) : ascii :=
  let n := nat_of_ascii c in
  if Nat.leb 97 n && Nat.leb n 122 then ascii_of_nat (n - 32) else c.

Fixpoint ToUpper (s : string) : string :=
  match s with
  | EmptyString => EmptyString
  | String c s' => String (upper_ascii c) (ToUpper s')
  end.

(** Go's [int] and [int64] are 64-bit two's-complement integers. *)
Definition wrap64 (z : Z) : Z :=
  ((z + 2 ^ 63) mod 2 ^ 64 - 2 ^ 63)%Z.

Arguments wrap64 : simpl never.

Module Bootstrap.

(** ** Data of cmd/root.go *)

(** [storage.Params], as the composite literal of [Run] fills it. *)
Record Params := {
  Username : string;
  Password : string;
  DBName : string;
  Address : string;
  Port : string;
}.

(** [id.ID] values: the reserved zero identity and all the others. *)
Inductive UserID :=
| ZeroUser
| User (n : nat).

(** [message.Type]: the kinds of message the switchboard tells apart. *)
Inductive MessageType :=
| NoType
| Raw
| Text
| OtherType (n : nat).

#[export] Instance UserID_eq_dec : EqDecision UserID.
Proof. solve_decision. Defined.

#[export] Instance MessageType_eq_dec : EqDecision MessageType.
Proof. solve_decision. Defined.

(** Thresholds of jwalterweatherman. *)
Inductive Threshold := LevelTrace | LevelDebug | LevelInfo.

(** The ten places where [Run] and [initConfig] call [jww.FATAL.Panicf],
    each with the values it formats. *)
Inductive Fatal :=
| FailedFindConfig (e : error)
| FailedExpandPath (e : error)
| UnableDbPort (rawAddr : string) (e : error)
| FailedStorage (e : error)
| FailedReadNDF (e : error)
| FailedNewClient (e : error)
| FailedLogin (e : error)
| FailedGenerateQR (e : error)
| FailedWriteQR (e : error)
| FailedFollower (e : error).

(** Lines written without stopping: [fmt.Printf] and [jww.ERROR.Printf]. *)
Inductive Line :=
| UnableReadConfig (cfgFile : string) (e : error)
| CouldNotSetenv (name : string) (e : error)
| CouldNotOpenLog (logPath : string).

(** viper's state, as far as this file uses it: the config file it was
    pointed at, whether [AutomaticEnv] is on, and the settings read from the
    file ([ReadInConfig] replaces them only when it succeeds). *)
Record Viper := {
  configFile : string;
  automaticEnv : bool;
  config : gmap string string;
}.

(** The package-level variables of cmd/root.go, and viper's singleton. *)
Record Globals := {
  cfgFile : string;
  logPath : string;
  validConfig : bool;
  viper : Viper;
}.

(** [message.Receive]: an item the client hands to the switchboard. *)
Record Receive := {
  Sender : UserID;
  Kind : MessageType;
  Payload : string;
}.

(** How a piece of the start-up ends: it returns, or it panics. *)
Inductive outcome (A : Type) : Type :=
| Done (a : A)
| Panic (f : Fatal).
Arguments Done {A} a.
Arguments Panic {A} f.

Section Run.

(** [*storage.Storage] and [*api.Client]: handles that [Run] only passes
    on. *)
Context {Storage Client : Type}.

(** [coupons.New(s, cl)]: the listener built from a storage handle and a
    client. *)
Inductive Impl :=
| New (s : Storage) (cl : Client).

(** The callback [rcb] is a closure over the client; its body confirms the
    authenticated channel and logs, and plays no part below. *)
Inductive Callback :=
| Rcb (cl : Client).

(** What the collaborators answer.  A field named after the Go function it
    stands for; a call that only returns an error has type
    [option error]. *)
Record World := {
  searchDefaultLocations : string -> string -> result string;
  expandPath : string -> result string;
  readInConfig : string -> result (gmap string string);
  lookupEnv : string -> option string;
  castToInt : string -> Z;
  castToUint : string -> N;
  setenv : string -> string -> option error;
  openFile : string -> option error;
  splitHostPort : string -> result (string * string);
  newStorage : Params -> result Storage;
  statIsNotExist : string -> bool;
  readFile : string -> result string;
  newClient : string -> string -> string -> string -> option error;
  login : string -> string -> result Client;
  makeQR : Client -> Z -> Z -> result string;
  writeFile : string -> string -> option error;
  startNetworkFollower : Client -> Z -> option error;
}.

(** Every call that leaves the package, in the order the code makes it. *)
Inductive Event :=
| ESearchDefaultLocations (file dir : string)
| EExpandPath (path : string)
| ESetConfigFile (path : string)
| EAutomaticEnv
| EReadInConfig (path : string)
| EPrintf (l : Line)
| EErrorPrintf (l : Line)
| EFatal (f : Fatal)
| ESetenv (name value : string)
| ESetLogThreshold (t : Threshold)
| ESetStdoutThreshold (t : Threshold)
| EOpenFile (path : string)
| ESetLogOutput (path : string)
| ESplitHostPort (rawAddr : string)
| ENewStorage (sp : Params)
| EStat (path : string)
| EReadFile (path : string)
| ENewClient (ndfJSON sessionPath sessionPass : string)
| ELogin (sessionPath sessionPass : string)
| EMakeQR (cl : Client) (qrSize qrLevel : Z)
| EWriteFile (path data : string)
| EStartNetworkFollower (cl : Client) (timeout : Z)
| EAddGeneralRequestCallback (cb : Callback)
| ECouponsNew (s : Storage) (cl : Client)
| ERegisterListener (user : UserID) (mt : MessageType) (l : Impl)
| ESelect.

(** ** The monad: globals, trace, panic *)

Definition M (A : Type) : Type :=
  Globals -> Globals * list Event * outcome A.

Definition ret {A} (a : A) : M A :=
  fun g => (g, [], Done a).

Definition bind {A B} (m : M A) (k : A -> M B) : M B :=
  fun g =>
    match m g with
    | (g1, t1, Done a) =>
        match k a g1 with
        | (g2, t2, r) => (g2, t1 ++ t2, r)
        end
    | (g1, t1, Panic f) => (g1, t1, Panic f)
    end.

Notation "x <- m ;; k" := (bind m (fun x => k))
  (at level 100, m at next level, right associativity).
Notation "m ;; k" := (bind m (fun _ => k))
  (at level 100, right associativity).

Definition emit (e : Event) : M unit :=
  fun g => (g, [e], Done tt).

Definition get : M Globals :=
  fun g => (g, [], Done g).

Definition put (g : Globals) : M unit :=
  fun _ => (g, [], Done tt).

(** [jww.FATAL.Panicf]: the line is logged and the goroutine panics. *)
Definition Panicf {A} (f : Fatal) : M A :=
  fun g => (g, [EFatal f], Panic f).

Definition set_cfgFile (p : string) : M unit :=
  g <- get ;;
  put {| cfgFile := p; logPath := logPath g;
         validConfig := validConfig g; viper := viper g |}.

Definition set_logPath (p : string) : M unit :=
  g <- get ;;
  put {| cfgFile := cfgFile g; logPath := p;
         validConfig := validConfig g; viper := viper g |}.

Definition set_validConfig (b : bool) : M unit :=
  g <- get ;;
  put {| cfgFile := cfgFile g; logPath := logPath g;
         validConfig := b; viper := viper g |}.

Definition set_viper (v : Viper) : M unit :=
  g <- get ;;
  put {| cfgFile := cfgFile g; logPath := logPath g;
         validConfig := validConfig g; viper := v |}.

Context (w : World).

(** ** viper *)

(** The value viper finds for a key: with [AutomaticEnv] on, a non-empty
    environment variable named by the upper-cased key comes first, then the
    settings of the config file.  The settings are keyed by the spelling
    the code asks with; viper itself compares keys without regard to case,
    so a file that spells a key in another case is outside this map. *)
Definition envValue (key : string) : option string :=
  match lookupEnv w (ToUpper key) with
  | Some val => if decide (val = "") then None else Some val
  | None => None
  end.

Definition viperFind (v : Viper) (key : string) : option string :=
  match (if automaticEnv v then envValue key else None) with
  | Some val => Some val
  | None => config v !! key
  end.

(** What [viper.GetString], [GetInt] and [GetUint] return in a given state
    of viper: the zero value when the key is not found. *)
Definition getString (v : Viper) (key : string) : string :=
  default "" (viperFind v key).

Definition getInt (v : Viper) (key : string) : Z :=
  default 0%Z (castToInt w <$> viperFind v key).

Definition getUint (v : Viper) (key : string) : N :=
  default 0%N (castToUint w <$> viperFind v key).

Definition GetString (key : string) : M string :=
  g <- get ;;
  ret (getString (viper g) key).

Definition GetInt (key : string) : M Z :=
  g <- get ;;
  ret (getInt (viper g) key).

Definition GetUint (key : string) : M N :=
  g <- get ;;
  ret (getUint (viper g) key).

Definition SetConfigFile (path : string) : M unit :=
  emit (ESetConfigFile path) ;;
  g <- get ;;
  set_viper {| configFile := path; automaticEnv := automaticEnv (viper g);
               config := config (viper g) |}.

Definition AutomaticEnv : M unit :=
  emit EAutomaticEnv ;;
  g <- get ;;
  set_viper {| configFile := configFile (viper g); automaticEnv := true;
               config := config (viper g) |}.

Definition ReadInConfig : M (option error) :=
  g <- get ;;
  emit (EReadInConfig (configFile (viper g))) ;;
  match readInConfig w (configFile (viper g)) with
  | Ok c =>
      set_viper {| configFile := configFile (viper g);
                   automaticEnv := automaticEnv (viper g); config := c |} ;;
      ret None
  | Err e => ret (Some e)
  end.

(** ** initConfig

    [utils.SearchDefaultLocations] and [utils.ExpandPath] return the empty
    path along with their error, and the code assigns it to [cfgFile]
    before it looks at the error. *)

Definition initConfig : M unit :=
  set_validConfig true ;;
  g <- get ;;
  (if decide (cfgFile g = "") then
     emit (ESearchDefaultLocations "udb.yaml" "xxnetwork") ;;
     match searchDefaultLocations w "udb.yaml" "xxnetwork" with
     | Ok p => set_cfgFile p
     | Err e =>
         set_cfgFile "" ;;
         set_validConfig false ;;
         Panicf (FailedFindConfig e)
     end
   else
     emit (EExpandPath (cfgFile g)) ;;
     match expandPath w (cfgFile g) with
     | Ok p => set_cfgFile p
     | Err e =>
         set_cfgFile "" ;;
         set_validConfig false ;;
         Panicf (FailedExpandPath e)
     end) ;;
  g <- get ;;
  SetConfigFile (cfgFile g) ;;
  AutomaticEnv ;;
  err <- ReadInConfig ;;
  match err with
  | Some e =>
      emit (EPrintf (UnableReadConfig (cfgFile g) e)) ;;
      set_validConfig false
  | None => ret tt
  end.

(** ** initLog *)

Definition initLog : M unit :=
  vipLogLevel <- GetUint "logLevel" ;;
  (if (1 <? vipLogLevel)%N then
     emit (ESetenv "GRPC_GO_LOG_SEVERITY_LEVEL" "info") ;;
     match setenv w "GRPC_GO_LOG_SEVERITY_LEVEL" "info" with
     | Some e =>
         emit (EErrorPrintf (CouldNotSetenv "GRPC_GO_LOG_SEVERITY_LEVEL" e))
     | None => ret tt
     end ;;
     emit (ESetenv "GRPC_GO_LOG_VERBOSITY_LEVEL" "99") ;;
     match setenv w "GRPC_GO_LOG_VERBOSITY_LEVEL" "99" with
     | Some e =>
         emit (EErrorPrintf (CouldNotSetenv "GRPC_GO_LOG_VERBOSITY_LEVEL" e))
     | None => ret tt
     end ;;
     emit (ESetLogThreshold LevelTrace) ;;
     emit (ESetStdoutThreshold LevelTrace)
   else if (vipLogLevel =? 1)%N then
     emit (ESetLogThreshold LevelDebug) ;;
     emit (ESetStdoutThreshold LevelDebug)
   else
     emit (ESetLogThreshold LevelInfo) ;;
     emit (ESetStdoutThreshold LevelInfo)) ;;
  p <- GetString "log" ;;
  set_logPath p ;;
  emit (EOpenFile p) ;;
  match openFile w p with
  | Some _ => emit (EPrintf (CouldNotOpenLog p))
  | None => emit (ESetLogOutput p)
  end.

(** ** rootCmd.Run

    The closure is cut at its own comments; [Run] chains the pieces in the
    order of the source. *)

(** Initialize config & logging. *)
Definition initializeConfigAndLogging : M unit :=
  initConfig ;;
  initLog.

(** Get database parameters. *)
Definition getDatabaseParameters : M Params :=
  rawAddr <- GetString "dbAddress" ;;
  ap <- (if decide (rawAddr = "") then ret ("", "")
         else
           emit (ESplitHostPort rawAddr) ;;
           match splitHostPort w rawAddr with
           | Ok ap => ret ap
           | Err e => Panicf (UnableDbPort rawAddr e)
           end) ;;
  username <- GetString "dbUsername" ;;
  password <- GetString "dbPassword" ;;
  dbName <- GetString "dbName" ;;
  ret {| Username := username; Password := password; DBName := dbName;
         Address := fst ap; Port := snd ap |}.

(** Initialize storage object. *)
Definition initializeStorage (sp : Params) : M Storage :=
  emit (ENewStorage sp) ;;
  match newStorage w sp with
  | Ok s => ret s
  | Err e => Panicf (FailedStorage e)
  end.

(** Create the client if there's no session. *)
Definition createClient (sessionPath sessionPass : string) : M unit :=
  emit (EStat sessionPath) ;;
  if statIsNotExist w sessionPath then
    ndfPath <- GetString "ndf" ;;
    emit (EReadFile ndfPath) ;;
    match readFile w ndfPath with
    | Err e => Panicf (FailedReadNDF e)
    | Ok ndfJSON =>
        emit (ENewClient ndfJSON sessionPath sessionPass) ;;
        match newClient w ndfJSON sessionPath sessionPass "" with
        | Some e => Panicf (FailedNewClient e)
        | None => ret tt
        end
    end
  else ret tt.

(** Create client object. *)
Definition createClientObject (sessionPath sessionPass : string) : M Client :=
  emit (ELogin sessionPath sessionPass) ;;
  match login w sessionPath sessionPass with
  | Ok cl => ret cl
  | Err e => Panicf (FailedLogin e)
  end.

(** Generate QR code and save the PNG to file. *)
Definition generateQR (cl : Client) : M unit :=
  qrSize <- GetInt "qrSize" ;;
  qrLevel <- GetInt "qrLevel" ;;
  qrPath <- GetString "qrPath" ;;
  emit (EMakeQR cl qrSize qrLevel) ;;
  match makeQR w cl qrSize qrLevel with
  | Err e => Panicf (FailedGenerateQR e)
  | Ok qr =>
      emit (EWriteFile qrPath qr) ;;
      match writeFile w qrPath qr with
      | Some e => Panicf (FailedWriteQR e)
      | None => ret tt
      end
  end.

(** Start network follower. *)
Definition startFollower (cl : Client) (timeout : Z) : M unit :=
  emit (EStartNetworkFollower cl timeout) ;;
  match startNetworkFollower w cl timeout with
  | Some e => Panicf (FailedFollower e)
  | None => ret tt
  end.

(** Create coupons impl & register listener on zero user for text
    messages. *)
Definition registerListener (s : Storage) (cl : Client) : M unit :=
  emit (ECouponsNew s cl) ;;
  emit (ERegisterListener ZeroUser Text (New s cl)).

(** Everything after the storage object exists.  The last statement,
    [select {}], blocks for ever: [Done tt] after [ESelect] is the service
    up and waiting. *)
Definition serve (s : Storage) : M unit :=
  sessionPath <- GetString "sessionPath" ;;
  sessionPass <- GetString "sessionPass" ;;
  seconds <- GetInt "networkFollowerTimeout" ;;
  createClient sessionPath sessionPass ;;
  cl <- createClientObject sessionPath sessionPass ;;
  generateQR cl ;;
  startFollower cl (wrap64 (seconds * 1000000000)) ;;
  emit (EAddGeneralRequestCallback (Rcb cl)) ;;
  registerListener s cl ;;
  emit ESelect.

Definition Run : M unit :=
  initializeConfigAndLogging ;;
  sp <- getDatabaseParameters ;;
  s <- initializeStorage sp ;;
  serve s.

(** ** Reading a run *)

Definition globals {A} (x : Globals * list Event * outcome A) : Globals :=
  fst (fst x).

Definition trace {A} (x : Globals * list Event * outcome A) : list Event :=
  snd (fst x).

Definition ending {A} (x : Globals * list Event * outcome A) : outcome A :=
  snd x.

(** The path [initConfig] settles on: a search of the default locations
    when [cfgFile] is empty, the expansion of [cfgFile] otherwise. *)
Definition configPath (g : Globals) : result string :=
  if decide (cfgFile g = "") then
    searchDefaultLocations w "udb.yaml" "xxnetwork"
  else expandPath w (cfgFile g).

(** The listeners a trace registers on the switchboard, in order. *)
Definition registration (e : Event) : option (UserID * MessageType * Impl) :=
  match e with
  | ERegisterListener u mt l => Some (u, mt, l)
  | _ => None
  end.

Definition registered (t : list Event) : list (UserID * MessageType * Impl) :=
  omap registration t.

(** The switchboard's dispatch on the message kind: a registration for
    [NoType] hears every kind, any other registration hears its own kind
    only.  How the registration's user is compared with an item belongs to
    the client library and is the parameter [userMatches]. *)
Definition kindMatches (reg : MessageType) (item : Receive) : bool :=
  bool_decide (reg = NoType) || bool_decide (reg = Kind item).

Definition Speak (userMatches : UserID -> Receive -> bool)
    (regs : list (UserID * MessageType * Impl)) (item : Receive) : list Impl :=
  omap (fun reg : UserID * MessageType * Impl =>
          if userMatches (fst (fst reg)) item && kindMatches (snd (fst reg)) item
          then Some (snd reg) else None)
       regs.

End Run.

(** The process as the Go runtime starts it: the package variables hold
    their zero values and viper has read nothing. *)
Definition fresh : Globals :=
  {| cfgFile := ""; logPath := ""; validConfig := false;
     viper := {| configFile := ""; automaticEnv := false; config := ∅ |} |}.

End Bootstrap.


(** * The redemption core

    [cmd/root.go] builds the core with [coupons.New(s, cl)] and never looks
    inside it: the [coupons] and [storage] packages are not part of the
    sources at hand.  The modules below follow the specification of the core,
    component by component. *)

Module DataModel.

Definition Identity := string.
Definition Timestamp := Z.
Bind Scope Z_scope with Timestamp.
Definition Reward := string.

Inductive Status := Unredeemed | Redeemed.

#[export] Instance Status_eq_dec : EqDecision Status.
Proof. solve_decision. Defined.

(** Modelled from the spec: the CouponRecord of the data model, which the
    absent storage package keeps; [redeemedBy] and [redeemedAt] are empty
    until the record is redeemed. *)
Record CouponRecord := {
  code : string;
  status : Status;
  redeemedBy : option Identity;
  redeemedAt : option Timestamp;
  payload : Reward;
}.

(** Modelled from the spec: the RedemptionRequest that the absent codec
    builds from one inbound message. *)
Record RedemptionRequest := {
  requesterIdentity : Identity;
  rawCode : string;
  receivedAt : Timestamp;
}.

(** Modelled from the spec: the five outcomes of a RedemptionResult. *)
Inductive Outcome :=
| Success
| AlreadyRedeemed
| NotFound
| Malformed
| StorageError.

#[export] Instance Outcome_eq_dec : EqDecision Outcome.
Proof. solve_decision. Defined.

(** Modelled from the spec: the RedemptionResult that the absent engine
    hands to the codec. *)
Record RedemptionResult := {
  outcome : Outcome;
  reward : option Reward;
  humanMessage : string;
}.

(** Modelled from the spec: the invariant of a record, [redeemedBy] and
    [redeemedAt] are set iff the status is Redeemed. *)
Definition wellFormed (r : CouponRecord) : Prop :=
  match status r with
  | Unredeemed => redeemedBy r = None /\ redeemedAt r = None
  | Redeemed => is_Some (redeemedBy r) /\ is_Some (redeemedAt r)
  end.

End DataModel.

Module StorageAdapter.
Import DataModel.

(** Modelled from the spec: what [tryConsume] of the absent storage package
    returns. *)
Inductive Consume :=
| Consumed (p : Reward)
| AlreadyRedeemed
| NotFound
| StorageError.

#[export] Instance Consume_eq_dec : EqDecision Consume.
Proof. solve_decision. Defined.

(** Modelled from the spec: whether the I/O of one storage call goes
    through (a connection loss or a time-out is [IOFailure]). *)
Inductive IO := Reached | IOFailure.

(** Modelled from the spec: one invocation of [tryConsume], as the storage
    stub of the spec's tests counts it. *)
Record Call := {
  callCode : string;
  callBy : Identity;
  callAt : Timestamp;
}.

(** Modelled from the spec: the durable store of the absent storage
    package, the records keyed by code, with the invocations of
    [tryConsume] it has seen (newest first). *)
Record Storage := {
  records : gmap string CouponRecord;
  consumeCalls : list Call;
}.

(** Modelled from the spec: [lookup], read-only. *)
Definition lookup (c : string) (st : Storage) : option CouponRecord :=
  records st !! c.

(** Modelled from the spec: what the conditional update of the absent
    storage package writes, the status Redeemed with [redeemedBy] and
    [redeemedAt] set. *)
Definition redeemed (r : CouponRecord) (who : Identity) (at_ : Timestamp)
    : CouponRecord :=
  {| code := code r; status := Redeemed; redeemedBy := Some who;
     redeemedAt := Some at_; payload := payload r |}.

(** Modelled from the spec: [tryConsume], the single atomic primitive of the
    absent storage package.  One conditional update: the record becomes
    Redeemed where the code exists and is Unredeemed; an unknown code is
    NotFound; an I/O failure is StorageError and updates nothing. *)
Definition tryConsume (io : IO) (c : string) (who : Identity)
    (at_ : Timestamp) (st : Storage) : Consume * Storage :=
  let seen := {| callCode := c; callBy := who; callAt := at_ |}
                :: consumeCalls st in
  match io with
  | IOFailure =>
      (StorageError, {| records := records st; consumeCalls := seen |})
  | Reached =>
      match records st !! c with
      | None => (NotFound, {| records := records st; consumeCalls := seen |})
      | Some r =>
          match status r with
          | Unredeemed =>
              (Consumed (payload r),
               {| records := <[c := redeemed r who at_]> (records st);
                  consumeCalls := seen |})
          | Redeemed =>
              (AlreadyRedeemed,
               {| records := records st; consumeCalls := seen |})
          end
      end
  end.

(** A caller of [tryConsume] and the fate of its I/O. *)
Record Caller := {
  who : Identity;
  at_time : Timestamp;
  io : IO;
}.

(** Concurrent calls on one code: [tryConsume] is atomic, so an execution is
    the calls taken one after the other in some order, the schedule. *)
Fixpoint consumeAll (c : string) (schedule : list Caller) (st : Storage)
    : list (Caller * Consume) * Storage :=
  match schedule with
  | [] => ([], st)
  | x :: rest =>
      let '(o, st1) := tryConsume (io x) c (who x) (at_time x) st in
      let '(os, st2) := consumeAll c rest st1 in
      ((x, o) :: os, st2)
  end.


Definition isConsumed (o : Consume) : bool :=
  match o with Consumed _ => true | _ => false end.

Definition isAlreadyRedeemed (o : Consume) : bool :=
  match o with AlreadyRedeemed => true | _ => false end.

Definition reached (x : Caller) : bool :=
  match io x with Reached => true | IOFailure => false end.

End StorageAdapter.

Module RequestCodec.
Import DataModel.

(** Modelled from the spec: the white space that the absent codec trims,
    taken as ASCII white space (tab, line feed, vertical tab, form feed,
    carriage return, space). *)
Definition isSpace (c : ascii) : bool :=
  let n := nat_of_ascii c in
  (Nat.leb 9 n && Nat.leb n 13) || Nat.eqb n 32.

(** Modelled from the spec: the trimming of the absent codec, white space
    dropped at both ends. *)
Fixpoint trimLeft (l : list ascii) : list ascii :=
  match l with
  | [] => []
  | c :: l' => if isSpace c then trimLeft l' else l
  end.

Definition trimRight (l : list ascii) : list ascii :=
  rev (trimLeft (rev l)).

Definition trim (l : list ascii) : list ascii :=
  trimRight (trimLeft l).

Section Codec.

(** The longest code the codec accepts; the specification rejects
    over-length input and leaves the bound open. *)
Context (maxCodeLength : nat).

(** Modelled from the spec: [decode] of the absent codec.  The text is
    trimmed; what is left must be one token, not empty, not longer than the
    bound, with no white space inside; the code is the token in upper
    case. *)
Definition decode (raw : string) (requester : Identity) (received : Timestamp)
    : option RedemptionRequest :=
  let token := trim (list_ascii_of_string raw) in
  if bool_decide (token = []) then None
  else if existsb isSpace token then None
  else if Nat.ltb maxCodeLength (length token) then None
  else Some {| requesterIdentity := requester;
               rawCode := ToUpper (string_of_list_ascii token);
               receivedAt := received |}.

End Codec.

(** Modelled from the spec: the fixed text of each outcome, the outbound
    messages of the external interfaces. *)
Definition template (o : Outcome) (p : option Reward) : string :=
  match o with
  | Success => "SUCCESS: " ++ default "" p
  | AlreadyRedeemed => "ALREADY_REDEEMED"
  | NotFound => "NOT_FOUND"
  | Malformed => "MALFORMED_REQUEST"
  | StorageError => "TEMPORARY_ERROR"
  end.

(** Modelled from the spec: [encode] of the absent codec, the fixed text of
    the result's outcome. *)
Definition encode (r : RedemptionResult) : string :=
  template (outcome r) (reward r).

End RequestCodec.

Module RedemptionEngine.
Import DataModel.

(** Modelled from the spec: step 3 of the engine, the storage outcome
    mapped to the result one to one, and step 4, the fixed message. *)
Definition resultOf (o : StorageAdapter.Consume) : RedemptionResult :=
  match o with
  | StorageAdapter.Consumed p =>
      {| outcome := Success; reward := Some p;
         humanMessage := RequestCodec.template Success (Some p) |}
  | StorageAdapter.AlreadyRedeemed =>
      {| outcome := AlreadyRedeemed; reward := None;
         humanMessage := RequestCodec.template AlreadyRedeemed None |}
  | StorageAdapter.NotFound =>
      {| outcome := NotFound; reward := None;
         humanMessage := RequestCodec.template NotFound None |}
  | StorageAdapter.StorageError =>
      {| outcome := StorageError; reward := None;
         humanMessage := RequestCodec.template StorageError None |}
  end.

(** Modelled from the spec: step 1 of the engine, the result of a failed
    decode. *)
Definition malformed : RedemptionResult :=
  {| outcome := Malformed; reward := None;
     humanMessage := RequestCodec.template Malformed None |}.

(** Modelled from the spec: the algorithm of the absent engine, per
    request.  A failed decode is Malformed and stops there; otherwise
    [tryConsume] is called once, with the time [now], and its outcome is
    mapped. *)
Definition redeem (io : StorageAdapter.IO) (now : Timestamp)
    (decoded : option RedemptionRequest) (st : StorageAdapter.Storage)
    : RedemptionResult * StorageAdapter.Storage :=
  match decoded with
  | None => (malformed, st)
  | Some req =>
      let '(o, st') :=
        StorageAdapter.tryConsume io (rawCode req) (requesterIdentity req)
          now st in
      (resultOf o, st')
  end.

End RedemptionEngine.

Module ListenerAdapter.
Import DataModel.

(** Modelled from the spec: a text message handed to the absent listener,
    and the reply it sends. *)
Record Inbound := {
  sender : Identity;
  text : string;
}.

Record Outbound := {
  recipient : Identity;
  body : string;
}.

(** Modelled from the spec: the handler of the absent listener, per inbound
    message: decode, run the engine, encode, send to the sender.  Whether
    the send goes through ([delivered]) changes nothing in storage. *)
Definition hear (maxCodeLength : nat) (io : StorageAdapter.IO)
    (now : Timestamp) (delivered : bool) (m : Inbound)
    (st : StorageAdapter.Storage)
    : Outbound * bool * StorageAdapter.Storage :=
  let decoded := RequestCodec.decode maxCodeLength (text m) (sender m) now in
  let '(res, st') := RedemptionEngine.redeem io now decoded st in
  ({| recipient := sender m; body := RequestCodec.encode res |},
   delivered, st').

End ListenerAdapter.

(** * Facts about the start-up command *)

Module BootstrapFacts.
Import Bootstrap.

Notation "x <- m ;; k" := (bind m (fun x => k))
  (at level 100, m at next level, right associativity).
Notation "m ;; k" := (bind m (fun _ => k))
  (at level 100, right associativity).

Section Facts.

Context {Storage Client : Type}.

Abbreviation Event := (@Event Storage Client).
Abbreviation Impl := (@Impl Storage Client).
Abbreviation M := (@M Storage Client).

(** Calls of the phases before the storage object is built, and of the
    phases after it; a fatal line belongs to the phase that can write
    it. *)
Definition beforeStorage (e : Event) : Prop :=
  match e with
  | ESearchDefaultLocations _ _ | EExpandPath _ | ESetConfigFile _
  | EAutomaticEnv | EReadInConfig _ | EPrintf _ | EErrorPrintf _
  | ESetenv _ _ | ESetLogThreshold _ | ESetStdoutThreshold _ | EOpenFile _
  | ESetLogOutput _ | ESplitHostPort _ => True
  | EFatal (FailedFindConfig _) | EFatal (FailedExpandPath _)
  | EFatal (UnableDbPort _ _) => True
  | _ => False
  end.


(** [emits P m]: whatever the globals, [m] only makes calls that satisfy
    [P], and when it panics the fatal line is in its trace. *)
Definition emits (P : Event -> Prop) {A} (m : M A) : Prop :=
  forall g g' t r,
    m g = (g', t, r) ->
    Forall P t /\ (forall f, r = Panic f -> In (EFatal f) t).

Lemma bind_inv {A B} (m : M A) (k : A -> M B) g g' t r :
  bind m k g = (g', t, r) ->
  (exists g1 t1 a t2,
      m g = (g1, t1, Done a) /\ k a g1 = (g', t2, r) /\ t = t1 ++ t2)
  \/ (exists f, m g = (g', t, Panic f) /\ r = Panic f).
Proof.
  unfold bind. destruct (m g) as [[g1 t1] [a|f]].
  - destruct (k a g1) as [[g2 t2] r2] eqn:Hk. intros [= ? ? ?]; subst.
    left. exists g1, t1, a, t2. auto.
  - intros [= ? ? ?]; subst. right. exists f. auto.
Qed.

Lemma bind_Done {A B} (m : M A) (k : A -> M B) g g1 t1 a :
  m g = (g1, t1, Done a) ->
  bind m k g = (globals (k a g1), t1 ++ trace (k a g1), ending (k a g1)).
Proof.
  intros H. unfold bind. rewrite H. destruct (k a g1) as [[g2 t2] r2].
  reflexivity.
Qed.

Lemma bind_Panic {A B} (m : M A) (k : A -> M B) g g1 t1 f :
  m g = (g1, t1, Panic f) -> bind m k g = (g1, t1, Panic f).
Proof. intros H. unfold bind. rewrite H. reflexivity. Qed.

Lemma emits_ret P {A} (a : A) : emits P (ret a).
Proof. intros g g' t r [= ? ? ?]; subst. split; [constructor | discriminate]. Qed.

Lemma emits_get P : emits P get.
Proof. intros g g' t r [= ? ? ?]; subst. split; [constructor | discriminate]. Qed.

Lemma emits_put P g0 : emits P (put g0).
Proof. intros g g' t r [= ? ? ?]; subst. split; [constructor | discriminate]. Qed.

Lemma emits_emit (P : Event -> Prop) e : P e -> emits P (emit e).
Proof.
  intros He g g' t r [= ? ? ?]; subst.
  split; [repeat constructor; exact He | discriminate].
Qed.

Lemma emits_Panicf (P : Event -> Prop) {A} f :
  P (EFatal f) -> emits P (@Panicf _ _ A f).
Proof.
  intros He g g' t r [= ? ? ?]; subst. split.
  - repeat constructor. exact He.
  - intros f' [= <-]. left. reflexivity.
Qed.

Lemma emits_bind P {A B} (m : M A) (k : A -> M B) :
  emits P m -> (forall a, emits P (k a)) -> emits P (bind m k).
Proof.
  intros Hm Hk g g' t r H.
  destruct (bind_inv _ _ _ _ _ _ H)
    as [(g1 & t1 & a & t2 & H1 & H2 & ->)|(f & H1 & ->)].
  - destruct (Hm _ _ _ _ H1) as [F1 _].
    destruct (Hk _ _ _ _ _ H2) as [F2 P2]. split.
    + apply Forall_app. split; assumption.
    + intros f Hf. apply in_or_app. right. exact (P2 f Hf).
  - destruct (Hm _ _ _ _ H1) as [F1 P1]. split; [exact F1 |].
    intros f' [= <-]. apply P1. reflexivity.
Qed.

Ltac emits_step :=
  first
    [ apply emits_ret
    | apply emits_get
    | apply emits_put
    | apply emits_emit; exact I
    | apply emits_Panicf; exact I
    | apply emits_bind; [| intros ?]
    | match goal with
      | |- emits _ (match ?x with _ => _ end) => destruct x
      end ].

Ltac emits_solve := repeat emits_step.

Ltac run := cbv beta iota delta [bind emit ret get put Panicf].

Ltac in_list := cbn; repeat (first [left; reflexivity | right]).

Context (w : @World Storage Client).

Lemma initConfig_emits : emits beforeStorage (initConfig w).
Proof.
  unfold initConfig, SetConfigFile, AutomaticEnv, ReadInConfig,
    set_validConfig, set_cfgFile, set_viper.
  emits_solve.
Qed.

Lemma initLog_emits : emits beforeStorage (initLog w).
Proof.
  unfold initLog, GetUint, GetString, set_logPath. emits_solve.
Qed.

Lemma initializeConfigAndLogging_emits :
  emits beforeStorage (initializeConfigAndLogging w).
Proof.
  unfold initializeConfigAndLogging. apply emits_bind.
  - apply initConfig_emits.
  - intros _. apply initLog_emits.
Qed.

Lemma getDatabaseParameters_emits :
  emits beforeStorage (getDatabaseParameters w).
Proof.
  unfold getDatabaseParameters, GetString. emits_solve.
Qed.


Lemma registered_app (t1 t2 : list Event) :
  registered (t1 ++ t2) = registered t1 ++ registered t2.
Proof. unfold registered. apply omap_app. Qed.

Lemma before_not_storage t sp :
  Forall beforeStorage t -> ~ In (ENewStorage sp) t.
Proof.
  intros F Hin. rewrite List.Forall_forall in F. exact (F _ Hin).
Qed.

Lemma before_not_select t : Forall beforeStorage t -> ~ In ESelect t.
Proof.
  intros F Hin. rewrite List.Forall_forall in F. exact (F _ Hin).
Qed.

Lemma before_registered t : Forall beforeStorage t -> registered t = [].
Proof.
  induction 1 as [|e t He _ IH]; [reflexivity |].
  unfold registered in *. cbn. rewrite IH.
  destruct e; try reflexivity. destruct He.
Qed.


(** How [serve] ends: up and waiting, with the listener built from [s] and
    the client of [api.Login] registered last, or panicked with nothing
    registered. *)
Lemma serve_cases s g g' t r :
  serve w s g = (g', t, r) ->
  match r with
  | Done _ =>
      exists cl,
        login w (getString w (viper g) "sessionPath")
                (getString w (viper g) "sessionPass") = Ok cl /\
        registered t = [(ZeroUser, Text, New s cl)] /\
        In (ECouponsNew s cl) t /\ In ESelect t
  | Panic f =>
      registered t = [] /\ ~ In ESelect t /\
      forall s' cl, ~ In (ECouponsNew s' cl) t
  end.
Proof.
  unfold serve, createClient, createClientObject, generateQR, startFollower,
    registerListener, GetString, GetInt.
  run.
  repeat
    (match goal with
     | |- context [statIsNotExist w ?a] =>
         destruct (statIsNotExist w a) eqn:?
     | |- context [readFile w ?a] => destruct (readFile w a) eqn:?
     | |- context [newClient w ?a ?b ?c ?d] =>
         destruct (newClient w a b c d) eqn:?
     | |- context [login w ?a ?b] => destruct (login w a b) eqn:?
     | |- context [makeQR w ?a ?b ?c] => destruct (makeQR w a b c) eqn:?
     | |- context [writeFile w ?a ?b] => destruct (writeFile w a b) eqn:?
     | |- context [startNetworkFollower w ?a ?b] =>
         destruct (startNetworkFollower w a b) eqn:?
     end; run).
  all: intros [= ? ? ?]; subst.
  all: try (eexists; repeat split; solve [reflexivity | in_list]).
  all: cbn; intuition congruence.
Qed.

(** [serve] builds at most one listener, from [s] and the client it
    registers. *)
Lemma registered_coupons s g g' t r :
  serve w s g = (g', t, r) ->
  forall s' cl', In (ECouponsNew s' cl') t ->
    s' = s /\ registered t = [(ZeroUser, Text, New s' cl')].
Proof.
  unfold serve, createClient, createClientObject, generateQR, startFollower,
    registerListener, GetString, GetInt.
  run.
  repeat
    (match goal with
     | |- context [statIsNotExist w ?a] =>
         destruct (statIsNotExist w a) eqn:?
     | |- context [readFile w ?a] => destruct (readFile w a) eqn:?
     | |- context [newClient w ?a ?b ?c ?d] =>
         destruct (newClient w a b c d) eqn:?
     | |- context [login w ?a ?b] => destruct (login w a b) eqn:?
     | |- context [makeQR w ?a ?b ?c] => destruct (makeQR w a b c) eqn:?
     | |- context [writeFile w ?a ?b] => destruct (writeFile w a b) eqn:?
     | |- context [startNetworkFollower w ?a ?b] =>
         destruct (startNetworkFollower w a b) eqn:?
     end; run).
  all: intros [= ? ? ?] s' cl' Hin; subst.
  all: cbn in Hin; intuition (try discriminate).
  all: match goal with H : ECouponsNew _ _ = ECouponsNew _ _ |- _ =>
         injection H as <- <- end; reflexivity.
Qed.

Ltac exec_serve :=
  unfold serve, createClient, createClientObject, generateQR, startFollower,
    registerListener, GetString, GetInt;
  run;
  repeat
    (match goal with
     | |- context [statIsNotExist w ?a] =>
         destruct (statIsNotExist w a) eqn:?
     | |- context [readFile w ?a] => destruct (readFile w a) eqn:?
     | |- context [newClient w ?a ?b ?c ?d] =>
         destruct (newClient w a b c d) eqn:?
     | |- context [login w ?a ?b] => destruct (login w a b) eqn:?
     | |- context [makeQR w ?a ?b ?c] => destruct (makeQR w a b c) eqn:?
     | |- context [writeFile w ?a ?b] => destruct (writeFile w a b) eqn:?
     | |- context [startNetworkFollower w ?a ?b] =>
         destruct (startNetworkFollower w a b) eqn:?
     end; run).

(** Once the network follower has started, [serve] goes through to
    [select]: nothing between the two can fail. *)
Lemma serve_followed s g g' t r cl timeout :
  serve w s g = (g', t, r) ->
  In (EStartNetworkFollower cl timeout) t ->
  startNetworkFollower w cl timeout = None ->
  r = Done tt /\ registered t = [(ZeroUser, Text, New s cl)].
Proof.
  exec_serve.
  all: intros [= ? ? ?] Hin Hok; subst.
  all: cbn in Hin.
  all: repeat (destruct Hin as [Hin|Hin]; [try discriminate Hin |]);
    try contradiction.
  all: injection Hin as <- <-.
  all: try (exfalso; congruence).
  all: split; reflexivity.
Qed.


(** The three ways [Run] can go: a panic before the storage object is
    asked for, a panic because [storage.NewStorage] failed, or [serve] with
    the storage object. *)
Lemma Run_cases g g' t r :
  Run w g = (g', t, r) ->
  (exists f, r = Panic f /\ Forall beforeStorage t /\ In (EFatal f) t)
  \/ (exists pre sp e,
        Forall beforeStorage pre /\ newStorage w sp = Err e /\
        t = pre ++ [ENewStorage sp; EFatal (FailedStorage e)] /\
        r = Panic (FailedStorage e))
  \/ (exists pre sp s g1 t2,
        Forall beforeStorage pre /\ newStorage w sp = Ok s /\
        serve w s g1 = (g', t2, r) /\ t = pre ++ ENewStorage sp :: t2).
Proof.
  unfold Run. intros H.
  destruct (bind_inv _ _ _ _ _ _ H)
    as [(g1 & t1 & [] & t2 & H1 & H2 & ->)|(f & H1 & ->)].
  2: { left. exists f.
       destruct (initializeConfigAndLogging_emits _ _ _ _ H1) as [F P].
       auto. }
  destruct (initializeConfigAndLogging_emits _ _ _ _ H1) as [F1 _].
  destruct (bind_inv _ _ _ _ _ _ H2)
    as [(g2 & t3 & sp & t4 & H3 & H4 & ->)|(f & H3 & ->)].
  2: { left. exists f.
       destruct (getDatabaseParameters_emits _ _ _ _ H3) as [F3 P3].
       split; [reflexivity |]. split.
       - apply Forall_app. split; assumption.
       - apply in_or_app. right. apply P3. reflexivity. }
  destruct (getDatabaseParameters_emits _ _ _ _ H3) as [F3 _].
  assert (F : Forall beforeStorage (t1 ++ t3))
    by (apply Forall_app; split; assumption).
  revert H4. unfold initializeStorage. run.
  destruct (newStorage w sp) as [s|e] eqn:Hs; run.
  - destruct (serve w s g2) as [[g3 t5] r5] eqn:Hserve.
    intros [= ? ? ?]; subst.
    right. right. exists (t1 ++ t3), sp, s, g2, t5.
    repeat split; try assumption. rewrite <- app_assoc. reflexivity.
  - intros [= ? ? ?]; subst.
    right. left. exists (t1 ++ t3), sp, e.
    repeat split; try assumption. rewrite <- app_assoc. reflexivity.
Qed.

Lemma Speak_other_kind (um : UserID -> Receive -> bool) (l : Impl) item :
  Kind item <> Text -> Speak um [(ZeroUser, Text, l)] item = [].
Proof.
  intros Hk. unfold Speak, kindMatches. cbn.
  rewrite (bool_decide_eq_false_2 (Text = Kind item)) by congruence.
  rewrite andb_false_r. reflexivity.
Qed.

Lemma Speak_text (um : UserID -> Receive -> bool) (l : Impl) item :
  Kind item = Text ->
  Speak um [(ZeroUser, Text, l)] item = if um ZeroUser item then [l] else [].
Proof.
  intros Hk. unfold Speak, kindMatches. cbn.
  rewrite (bool_decide_eq_true_2 (Text = Kind item)) by congruence.
  rewrite andb_true_r. destruct (um ZeroUser item); reflexivity.
Qed.

(** C7.  A start-up that completes has registered exactly one listener, on
    the zero user and for text messages, and a start-up that panics has
    registered none; the start-up does complete, and so registers it, as
    soon as the network follower has started.  With that registration the
    switchboard hands a text item to the listener when the user matches,
    and hands an item of any other kind to nobody: the dispatch returns the
    empty list, it does not fail. *)
Theorem one_text_listener_on_zero_user g :
  match ending (Run w g) with
  | Done _ =>
      exists l, registered (trace (Run w g)) = [(ZeroUser, Text, l)] /\
        forall um item,
          Kind item = Text ->
          Speak um (registered (trace (Run w g))) item =
            if um ZeroUser item then [l] else []
  | Panic _ => registered (trace (Run w g)) = []
  end /\
  (forall um item,
      Kind item <> Text -> Speak um (registered (trace (Run w g))) item = []) /\
  (forall cl timeout,
      In (EStartNetworkFollower cl timeout) (trace (Run w g)) ->
      startNetworkFollower w cl timeout = None ->
      ending (Run w g) = Done tt /\
      exists s, registered (trace (Run w g)) = [(ZeroUser, Text, New s cl)]).
Proof.
  destruct (Run w g) as [[g' t] r] eqn:HR. cbn [ending trace fst snd].
  destruct (Run_cases _ _ _ _ HR)
    as [(f & -> & F & _)|[(pre & sp & e & F & _ & -> & ->)
                         |(pre & sp & s & g1 & t2 & F & _ & Hs & ->)]].
  - rewrite (before_registered _ F). split; [reflexivity |]. split.
    + intros um item _. reflexivity.
    + intros cl timeout Hin _. exfalso.
      rewrite List.Forall_forall in F. exact (F _ Hin).
  - rewrite registered_app, (before_registered _ F). cbn.
    split; [reflexivity |]. split.
    + intros um item _. reflexivity.
    + intros cl timeout Hin _. exfalso.
      apply in_app_or in Hin as [Hin|Hin].
      * rewrite List.Forall_forall in F. exact (F _ Hin).
      * cbn in Hin. intuition discriminate.
  - change (pre ++ ENewStorage sp :: t2)
      with (pre ++ [ENewStorage sp] ++ t2).
    rewrite !registered_app, (before_registered _ F). cbn.
    pose proof (serve_cases _ _ _ _ _ Hs) as Hc.
    assert (Hfollow : forall cl timeout,
      In (EStartNetworkFollower cl timeout) (pre ++ ENewStorage sp :: t2) ->
      startNetworkFollower w cl timeout = None ->
      r = Done tt /\ registered t2 = [(ZeroUser, Text, New s cl)]).
    { intros cl timeout Hin Hok.
      apply in_app_or in Hin as [Hin|[Hin|Hin]].
      - exfalso. rewrite List.Forall_forall in F. exact (F _ Hin).
      - discriminate Hin.
      - exact (serve_followed _ _ _ _ _ _ _ Hs Hin Hok). }
    destruct r as [[]|f].
    + destruct Hc as (cl & _ & Hreg & _). rewrite Hreg. split; [| split].
      * exists (New s cl). split; [reflexivity |].
        intros um item Hk. apply Speak_text. exact Hk.
      * intros um item Hk. apply Speak_other_kind. exact Hk.
      * intros cl0 timeout Hin Hok. split; [reflexivity |].
        destruct (Hfollow cl0 timeout Hin Hok) as [_ Hreg0].
        exists s. rewrite <- Hreg. exact Hreg0.
    + destruct Hc as (-> & _). split; [reflexivity |]. split.
      * intros um item _. reflexivity.
      * intros cl timeout Hin Hok.
        destruct (Hfollow cl timeout Hin Hok) as [Hd _]. discriminate Hd.
Qed.

(** C9.  In a start-up that completes, [storage.NewStorage] returned a
    storage object [s], the listener is [coupons.New(s, cl)] built once from
    that very object and the logged-in client, and it is the one listener
    registered: the handler gets its storage as a constructor argument. *)
Theorem listener_built_from_storage g :
  ending (Run w g) = Done tt ->
  exists sp s cl,
    In (ENewStorage sp) (trace (Run w g)) /\
    newStorage w sp = Ok s /\
    In (ECouponsNew s cl) (trace (Run w g)) /\
    (forall s' cl', In (ECouponsNew s' cl') (trace (Run w g)) ->
                    s' = s /\ cl' = cl) /\
    registered (trace (Run w g)) = [(ZeroUser, Text, New s cl)].
Proof.
  destruct (Run w g) as [[g' t] r] eqn:HR. cbn [ending trace fst snd].
  intros ->.
  destruct (Run_cases _ _ _ _ HR)
    as [(f & [=] & _)|[(pre & sp & e & _ & _ & _ & [=])
                      |(pre & sp & s & g1 & t2 & F & Hnew & Hs & ->)]].
  pose proof (serve_cases _ _ _ _ _ Hs) as (cl & _ & Hreg & Hin & _).
  exists sp, s, cl. split; [| split; [| split; [| split]]].
  - apply in_or_app. right. left. reflexivity.
  - exact Hnew.
  - apply in_or_app. right. right. exact Hin.
  - intros s' cl' H. apply in_app_or in H as [H|[H|H]].
    + rewrite List.Forall_forall in F. destruct (F _ H).
    + discriminate H.
    + pose proof (registered_coupons _ _ _ _ _ Hs _ _ H) as [-> Hreg'].
      rewrite Hreg in Hreg'. injection Hreg' as ->. auto.
  - change (pre ++ ENewStorage sp :: t2)
      with (pre ++ [ENewStorage sp] ++ t2).
    rewrite !registered_app, (before_registered _ F). cbn. exact Hreg.
Qed.

(** ** initConfig and initLog, run *)

Ltac fields :=
  cbn [cfgFile logPath validConfig viper configFile automaticEnv config].

(** The first call of [initConfig]. *)
Definition pathEvent (g : Globals) : Event :=
  if decide (cfgFile g = "") then ESearchDefaultLocations "udb.yaml" "xxnetwork"
  else EExpandPath (cfgFile g).

Definition pathFatal (g : Globals) (e : error) : Fatal :=
  if decide (cfgFile g = "") then FailedFindConfig e else FailedExpandPath e.

Lemma initConfig_found g p :
  configPath w g = Ok p ->
  initConfig w g =
    match readInConfig w p with
    | Ok c =>
        ({| cfgFile := p; logPath := logPath g; validConfig := true;
            viper := {| configFile := p; automaticEnv := true;
                        config := c |} |},
         [pathEvent g; ESetConfigFile p; EAutomaticEnv; EReadInConfig p],
         Done tt)
    | Err e =>
        ({| cfgFile := p; logPath := logPath g; validConfig := false;
            viper := {| configFile := p; automaticEnv := true;
                        config := config (viper g) |} |},
         [pathEvent g; ESetConfigFile p; EAutomaticEnv; EReadInConfig p;
          EPrintf (UnableReadConfig p e)],
         Done tt)
    end.
Proof.
  unfold configPath, pathEvent, initConfig, SetConfigFile, AutomaticEnv,
    ReadInConfig, set_validConfig, set_cfgFile, set_viper.
  run. fields.
  destruct (decide (cfgFile g = "")) as [Hc|Hc]; intros Hp; run; fields.
  - rewrite Hp. run. fields. destruct (readInConfig w p); run; reflexivity.
  - rewrite Hp. run. fields. destruct (readInConfig w p); run; reflexivity.
Qed.

Lemma initConfig_not_found g e :
  configPath w g = Err e ->
  initConfig w g =
    ({| cfgFile := ""; logPath := logPath g; validConfig := false;
        viper := viper g |},
     [pathEvent g; EFatal (pathFatal g e)], Panic (pathFatal g e)).
Proof.
  unfold configPath, pathEvent, pathFatal, initConfig, SetConfigFile,
    AutomaticEnv, ReadInConfig, set_validConfig, set_cfgFile, set_viper.
  run. fields.
  destruct (decide (cfgFile g = "")) as [Hc|Hc]; intros Hp; run; fields.
  - rewrite Hp. run. fields. reflexivity.
  - rewrite Hp. run. fields. reflexivity.
Qed.

(** [initLog] never panics, keeps viper as it is and always tries to open
    the log file. *)
Lemma initLog_done g :
  exists t,
    initLog w g =
      ({| cfgFile := cfgFile g; logPath := getString w (viper g) "log";
          validConfig := validConfig g; viper := viper g |}, t, Done tt) /\
    In (EOpenFile (getString w (viper g) "log")) t.
Proof.
  unfold initLog, GetUint, GetString, set_logPath. run. fields.
  destruct (1 <? _)%N; run; fields;
    [ destruct (setenv w "GRPC_GO_LOG_SEVERITY_LEVEL" "info"); run; fields;
      destruct (setenv w "GRPC_GO_LOG_VERBOSITY_LEVEL" "99"); run; fields
    | destruct (_ =? 1)%N; run; fields ].
  all: destruct (openFile w _); run; fields.
  all: eexists; split; [reflexivity | in_list].
Qed.

Lemma getDatabaseParameters_empty g :
  getString w (viper g) "dbAddress" = "" ->
  getDatabaseParameters w g =
    (g, [],
     Done {| Username := getString w (viper g) "dbUsername";
             Password := getString w (viper g) "dbPassword";
             DBName := getString w (viper g) "dbName";
             Address := ""; Port := "" |}).
Proof.
  intros Ha. unfold getDatabaseParameters, GetString. run.
  destruct (decide (getString w (viper g) "dbAddress" = "")) as [_|Hn];
    [| contradiction].
  run. reflexivity.
Qed.

Lemma getDatabaseParameters_invalid g e :
  getString w (viper g) "dbAddress" <> "" ->
  splitHostPort w (getString w (viper g) "dbAddress") = Err e ->
  getDatabaseParameters w g =
    (g,
     [ESplitHostPort (getString w (viper g) "dbAddress");
      EFatal (UnableDbPort (getString w (viper g) "dbAddress") e)],
     Panic (UnableDbPort (getString w (viper g) "dbAddress") e)).
Proof.
  intros Ha He. unfold getDatabaseParameters, GetString. run.
  destruct (decide (getString w (viper g) "dbAddress" = "")) as [Hn|_];
    [contradiction |].
  run. rewrite He. run. reflexivity.
Qed.

Lemma initializeStorage_first sp g :
  exists t2, trace (bind (initializeStorage w sp) (serve w) g)
             = ENewStorage sp :: t2.
Proof.
  unfold initializeStorage. run.
  destruct (newStorage w sp) as [s|e]; run.
  - destruct (serve w s g) as [[g3 t3] r3]. eexists. reflexivity.
  - eexists. reflexivity.
Qed.

(** C8.  Let the config and the log be initialized.  If the configured
    [dbAddress] is the empty string, [net.SplitHostPort] is not called, the
    storage Params get the empty Address and Port, and the start-up goes on
    to call [storage.NewStorage] with them.  If it is not empty and
    [net.SplitHostPort] rejects it, [Run] panics right there, and
    [storage.NewStorage] is never called. *)
Theorem database_address g g1 t1 :
  initializeConfigAndLogging w g = (g1, t1, Done tt) ->
  let rawAddr := getString w (viper g1) "dbAddress" in
  let sp := {| Username := getString w (viper g1) "dbUsername";
               Password := getString w (viper g1) "dbPassword";
               DBName := getString w (viper g1) "dbName";
               Address := ""; Port := "" |} in
  (rawAddr = "" ->
     getDatabaseParameters w g1 = (g1, [], Done sp) /\
     exists t2, trace (Run w g) = t1 ++ ENewStorage sp :: t2)
  /\
  (rawAddr <> "" ->
     forall e, splitHostPort w rawAddr = Err e ->
       Run w g =
         (g1, t1 ++ [ESplitHostPort rawAddr; EFatal (UnableDbPort rawAddr e)],
          Panic (UnableDbPort rawAddr e)) /\
       forall sp', ~ In (ENewStorage sp') (trace (Run w g))).
Proof.
  intros H rawAddr sp. split.
  - intros Ha. pose proof (getDatabaseParameters_empty _ Ha) as Hdb.
    split; [exact Hdb |].
    unfold Run. rewrite (bind_Done _ _ _ _ _ _ H). cbn [trace fst snd].
    rewrite (bind_Done _ _ _ _ _ _ Hdb). cbn [trace fst snd app].
    destruct (initializeStorage_first sp g1) as [t2 Ht2].
    exists t2. f_equal. exact Ht2.
  - intros Ha e He.
    pose proof (getDatabaseParameters_invalid _ _ Ha He) as Hdb.
    assert (HR : Run w g =
      (g1, t1 ++ [ESplitHostPort rawAddr; EFatal (UnableDbPort rawAddr e)],
       Panic (UnableDbPort rawAddr e))).
    { unfold Run. rewrite (bind_Done _ _ _ _ _ _ H).
      rewrite (bind_Panic _ _ _ _ _ _ Hdb). reflexivity. }
    split; [exact HR |].
    rewrite HR. cbn [trace fst snd]. intros sp' Hin.
    apply in_app_or in Hin as [Hin|Hin].
    + destruct (initializeConfigAndLogging_emits _ _ _ _ H) as [F _].
      exact (before_not_storage _ _ F Hin).
    + cbn in Hin. intuition discriminate.
Qed.


Lemma viperFind_after_failed_read g p key :
  viperFind w {| configFile := p; automaticEnv := true;
                 config := config (viper g) |} key =
    match envValue w key with
    | Some v => Some v
    | None => config (viper g) !! key
    end.
Proof. reflexivity. Qed.

(** C10, as the code has it.  When the config file path is found and
    [viper.ReadInConfig] fails, [initConfig] prints the error, leaves
    [validConfig] false and returns: no fatal line, no panic.  No setting of
    the file is loaded, so with viper otherwise untouched every key reads
    as its matching environment variable when there is a non-empty one, and
    as the zero value when there is none; the start-up goes on to
    [initLog].  [initConfig] panics exactly when the path cannot be found
    (no [cfgFile]) or expanded (a [cfgFile] given). *)
Theorem unreadable_config_does_not_halt g p e :
  configPath w g = Ok p ->
  readInConfig w p = Err e ->
  let g' := globals (initConfig w g) in
  (ending (initConfig w g) = Done tt /\
   validConfig g' = false /\
   cfgFile g' = p /\
   In (EPrintf (UnableReadConfig p e)) (trace (initConfig w g)) /\
   (forall f, ~ In (EFatal f) (trace (initConfig w g)))) /\
  (config (viper g) = ∅ ->
   forall key,
     viperFind w (viper g') key = envValue w key /\
     (envValue w key = None ->
      getString w (viper g') key = "" /\
      getInt w (viper g') key = 0%Z /\
      getUint w (viper g') key = 0%N)) /\
  (exists t2,
      trace (Run w g) = trace (initConfig w g) ++ t2 /\
      In (EOpenFile (getString w (viper g') "log")) t2) /\
  (forall g0 f,
      ending (initConfig w g0) = Panic f <->
      exists e0, configPath w g0 = Err e0 /\ f = pathFatal g0 e0).
Proof.
  intros Hp Hr g'. subst g'.
  pose proof (initConfig_found _ _ Hp) as Hc. rewrite Hr in Hc.
  split; [| split; [| split]].
  - rewrite Hc. cbn [ending globals trace fst snd]. fields.
    repeat split; try reflexivity.
    + in_list.
    + intros f Hin. cbn in Hin. unfold pathEvent in Hin.
      destruct (decide (cfgFile g = "")); intuition discriminate.
  - intros Hempty key. rewrite Hc. cbn [globals fst snd]. fields.
    unfold getString, getInt, getUint.
    rewrite viperFind_after_failed_read, Hempty, lookup_empty.
    split.
    + destruct (envValue w key); reflexivity.
    + intros ->. repeat split; reflexivity.
  - destruct (initLog_done (globals (initConfig w g))) as (tl & Hl & Hin).
    assert (Hi : initializeConfigAndLogging w g =
                 (globals (initLog w (globals (initConfig w g))),
                  trace (initConfig w g) ++ tl, Done tt)).
    { unfold initializeConfigAndLogging.
      rewrite (bind_Done _ _ _ _ _ _ Hc). rewrite Hc.
      cbn [globals trace fst snd]. rewrite Hc in Hl.
      cbn [globals fst snd] in Hl. rewrite Hl. reflexivity. }
    unfold Run. rewrite (bind_Done _ _ _ _ _ _ Hi). cbn [trace fst snd].
    rewrite <- app_assoc. eexists. split; [reflexivity |].
    apply in_or_app. left. exact Hin.
  - intros g0 f. split.
    + destruct (configPath w g0) as [p0|e0] eqn:Hp0.
      * rewrite (initConfig_found _ _ Hp0).
        destruct (readInConfig w p0); cbn; discriminate.
      * rewrite (initConfig_not_found _ _ Hp0). cbn. intros [= <-].
        exists e0. auto.
    + intros (e0 & Hp0 & ->). rewrite (initConfig_not_found _ _ Hp0).
      reflexivity.
Qed.

End Facts.

(** ** Concrete machines

    A world is given by what the config file holds (or why it cannot be
    read), the environment, and what [storage.NewStorage] answers; the
    other collaborators do their job.  Storage objects and clients are
    numbered. *)

Definition machine (file : result (gmap string string))
    (env : string -> option string) (store : result nat) : @World nat nat :=
  {| searchDefaultLocations := fun _ _ => Ok "/etc/xxnetwork/udb.yaml";
     expandPath := fun p => Ok p;
     readInConfig := fun _ => file;
     lookupEnv := env;
     castToInt := fun _ => 0%Z;
     castToUint := fun _ => 0%N;
     setenv := fun _ _ => None;
     openFile := fun _ => None;
     splitHostPort := fun _ => Err "missing port in address";
     newStorage := fun _ => store;
     statIsNotExist := fun _ => false;
     readFile := fun _ => Ok "{}";
     newClient := fun _ _ _ _ => None;
     login := fun _ _ => Ok 7;
     makeQR := fun _ _ _ => Ok "png";
     writeFile := fun _ _ => None;
     startNetworkFollower := fun _ _ => None |}.

Definition noEnv : string -> option string := fun _ => None.

Definition dbEnv : string -> option string :=
  fun name => if decide (name = "DBADDRESS") then Some "db.example:5432"
              else None.

Definition noParams : Params :=
  {| Username := ""; Password := ""; DBName := ""; Address := "";
     Port := "" |}.

Definition healthy : @World nat nat := machine (Ok ∅) noEnv (Ok 1).


Definition badAddress : @World nat nat :=
  machine (Ok {[ "dbAddress" := "localhost" ]}) noEnv (Ok 1).

Definition unreadable : @World nat nat :=
  machine (Err "yaml: line 1: did not find expected key") noEnv (Ok 1).

Definition unreadableWithEnv : @World nat nat :=
  machine (Err "yaml: line 1: did not find expected key") dbEnv (Ok 1).

Example healthy_run :
  trace (Run healthy fresh) =
    [ESearchDefaultLocations "udb.yaml" "xxnetwork";
     ESetConfigFile "/etc/xxnetwork/udb.yaml"; EAutomaticEnv;
     EReadInConfig "/etc/xxnetwork/udb.yaml";
     ESetLogThreshold LevelInfo; ESetStdoutThreshold LevelInfo;
     EOpenFile ""; ESetLogOutput "";
     ENewStorage noParams;
     EStat ""; ELogin "" ""; EMakeQR 7 0 0; EWriteFile "" "png";
     EStartNetworkFollower 7 0; EAddGeneralRequestCallback (Rcb 7);
     ECouponsNew 1 7; ERegisterListener ZeroUser Text (New 1 7); ESelect]
  /\ ending (Run healthy fresh) = Done tt.
Proof. split; vm_compute; reflexivity. Qed.




Lemma listener_built_from_storage_witness :
  ending (Run healthy fresh) = Done tt /\
  exists sp s cl,
    In (ENewStorage sp) (trace (Run healthy fresh)) /\
    newStorage healthy sp = Ok s /\
    In (ECouponsNew s cl) (trace (Run healthy fresh)) /\
    (forall s' cl', In (ECouponsNew s' cl') (trace (Run healthy fresh)) ->
                    s' = s /\ cl' = cl) /\
    registered (trace (Run healthy fresh)) = [(ZeroUser, Text, New s cl)].
Proof.
  assert (H : ending (Run healthy fresh) = Done tt) by (vm_compute; reflexivity).
  split; [exact H |].
  exact (listener_built_from_storage healthy fresh H).
Defined.

(** The globals once config and log are initialized, on a machine whose
    config file holds [c]. *)
Definition configured (c : gmap string string) : Globals :=
  {| cfgFile := "/etc/xxnetwork/udb.yaml"; logPath := "";
     validConfig := true;
     viper := {| configFile := "/etc/xxnetwork/udb.yaml";
                 automaticEnv := true; config := c |} |}.

Definition configTrace : list (@Event nat nat) :=
  [ESearchDefaultLocations "udb.yaml" "xxnetwork";
   ESetConfigFile "/etc/xxnetwork/udb.yaml"; EAutomaticEnv;
   EReadInConfig "/etc/xxnetwork/udb.yaml";
   ESetLogThreshold LevelInfo; ESetStdoutThreshold LevelInfo;
   EOpenFile ""; ESetLogOutput ""].

Lemma database_address_witness :
  (initializeConfigAndLogging healthy fresh
     = (configured ∅, configTrace, Done tt) /\
   getString healthy (viper (configured ∅)) "dbAddress" = "" /\
   exists t2,
     trace (Run healthy fresh) = configTrace ++ ENewStorage noParams :: t2)
  /\
  (initializeConfigAndLogging badAddress fresh
     = (configured {[ "dbAddress" := "localhost" ]}, configTrace, Done tt) /\
   splitHostPort badAddress "localhost" = Err "missing port in address" /\
   ending (Run badAddress fresh)
     = Panic (UnableDbPort "localhost" "missing port in address") /\
   forall sp, ~ In (ENewStorage sp) (trace (Run badAddress fresh))).
Proof.
  assert (H1 : initializeConfigAndLogging healthy fresh
               = (configured ∅, configTrace, Done tt))
    by (vm_compute; reflexivity).
  assert (H2 : initializeConfigAndLogging badAddress fresh
               = (configured {[ "dbAddress" := "localhost" ]}, configTrace,
                  Done tt))
    by (vm_compute; reflexivity).
  split.
  - split; [exact H1 |]. split; [reflexivity |].
    exact (proj2 (proj1 (database_address healthy fresh _ _ H1) eq_refl)).
  - split; [exact H2 |]. split; [reflexivity |].
    assert (Hne : getString badAddress
                    (viper (configured {[ "dbAddress" := "localhost" ]}))
                    "dbAddress" <> "")
      by (vm_compute; discriminate).
    destruct (proj2 (database_address badAddress fresh _ _ H2) Hne
                "missing port in address" eq_refl) as [HR Hno].
    split; [| exact Hno].
    rewrite HR. reflexivity.
Defined.

Lemma unreadable_config_does_not_halt_witness :
  configPath unreadable fresh = Ok "/etc/xxnetwork/udb.yaml" /\
  readInConfig unreadable "/etc/xxnetwork/udb.yaml"
    = Err "yaml: line 1: did not find expected key" /\
  ending (initConfig unreadable fresh) = Done tt /\
  validConfig (globals (initConfig unreadable fresh)) = false /\
  getString unreadable (viper (globals (initConfig unreadable fresh)))
    "dbAddress" = "".
Proof.
  assert (H1 : configPath unreadable fresh = Ok "/etc/xxnetwork/udb.yaml")
    by reflexivity.
  assert (H2 : readInConfig unreadable "/etc/xxnetwork/udb.yaml"
               = Err "yaml: line 1: did not find expected key")
    by reflexivity.
  pose proof (unreadable_config_does_not_halt unreadable fresh _ _ H1 H2)
    as (Ha & Hb & _).
  split; [exact H1 |]. split; [exact H2 |].
  split; [exact (proj1 Ha) |]. split; [exact (proj1 (proj2 Ha)) |].
  exact (proj1 (proj2 (Hb eq_refl "dbAddress") eq_refl)).
Defined.

(** C10 as stated fails where the environment supplies a setting: the
    config file is found and unreadable, [initConfig] returns, and the
    start-up continues with [dbAddress] read from [DBADDRESS], not with its
    zero value. *)
Lemma zero_valued_settings_counterexample :
  configPath unreadableWithEnv fresh = Ok "/etc/xxnetwork/udb.yaml" /\
  readInConfig unreadableWithEnv "/etc/xxnetwork/udb.yaml"
    = Err "yaml: line 1: did not find expected key" /\
  ending (initConfig unreadableWithEnv fresh) = Done tt /\
  getString unreadableWithEnv
    (viper (globals (initConfig unreadableWithEnv fresh))) "dbAddress"
    = "db.example:5432" /\
  getString unreadableWithEnv
    (viper (globals (initConfig unreadableWithEnv fresh))) "dbAddress"
    <> "" /\
  In (ESplitHostPort "db.example:5432") (trace (Run unreadableWithEnv fresh)).
Proof.
  repeat split; try (vm_compute; reflexivity).
  - vm_compute. discriminate.
  - vm_compute. tauto.
Qed.

End BootstrapFacts.

(** * Facts about the redemption core *)

Module CoreFacts.
Import DataModel StorageAdapter.

(** How many calls of a run returned Consumed, and how many returned
    AlreadyRedeemed. *)
Definition consumedCount (res : list (Caller * Consume)) : nat :=
  length (List.filter (fun p => isConsumed (snd p)) res).

Definition alreadyRedeemedCount (res : list (Caller * Consume)) : nat :=
  length (List.filter (fun p => isAlreadyRedeemed (snd p)) res).

(** What a call gets once the record is redeemed. *)
Definition late (x : Caller) : Caller * Consume :=
  (x, if reached x then AlreadyRedeemed else StorageError).

Definition failed (x : Caller) : Caller * Consume := (x, StorageError).

Example end_to_end_consume :
  let st := {| records := {[ "ABC123" :=
                 {| code := "ABC123"; status := Unredeemed;
                    redeemedBy := None; redeemedAt := None;
                    payload := "gift" |} ]};
               consumeCalls := [] |} in
  let '(o1, st1) := tryConsume Reached "ABC123" "U1" 10%Z st in
  let '(o2, st2) := tryConsume Reached "ABC123" "U2" 11%Z st1 in
  o1 = Consumed "gift" /\ o2 = AlreadyRedeemed /\
  redeemedBy <$> records st2 !! "ABC123" = Some (Some "U1") /\
  fst (tryConsume Reached "does-not-exist" "U3" 12%Z st2) = NotFound.
Proof. vm_compute. repeat split; reflexivity. Qed.

Lemma tryConsume_redeemed io c by_ at_ st r :
  records st !! c = Some r -> status r = Redeemed ->
  fst (tryConsume io c by_ at_ st)
    = match io with Reached => AlreadyRedeemed | IOFailure => StorageError end
  /\ records (snd (tryConsume io c by_ at_ st)) = records st.
Proof.
  intros Hr Hs. unfold tryConsume. destruct io; [| split; reflexivity].
  rewrite Hr, Hs. split; reflexivity.
Qed.

Lemma tryConsume_failure c by_ at_ st :
  fst (tryConsume IOFailure c by_ at_ st) = StorageError /\
  records (snd (tryConsume IOFailure c by_ at_ st)) = records st.
Proof. split; reflexivity. Qed.

Lemma tryConsume_unredeemed c by_ at_ st r :
  records st !! c = Some r -> status r = Unredeemed ->
  fst (tryConsume Reached c by_ at_ st) = Consumed (payload r) /\
  records (snd (tryConsume Reached c by_ at_ st))
    = <[c := redeemed r by_ at_]> (records st).
Proof.
  intros Hr Hs. unfold tryConsume. rewrite Hr, Hs. split; reflexivity.
Qed.



Lemma tryConsume_wellFormed io c by_ at_ st :
  (forall c' r, records st !! c' = Some r -> wellFormed r) ->
  forall c' r,
    records (snd (tryConsume io c by_ at_ st)) !! c' = Some r ->
    wellFormed r.
Proof.
  intros Hwf c' r. unfold tryConsume. destruct io; [| apply Hwf].
  destruct (records st !! c) as [r0|] eqn:Hc; [| apply Hwf].
  destruct (status r0); [| apply Hwf].
  cbn [snd records]. destruct (decide (c' = c)) as [->|Hne].
  - rewrite lookup_insert_eq. intros [= <-]. unfold wellFormed. cbn.
    split; eauto.
  - rewrite lookup_insert_ne by congruence. apply Hwf.
Qed.

(** Calls on a redeemed record: each gets AlreadyRedeemed, or StorageError
    when its I/O fails, and the records stay as they are. *)
Lemma consumeAll_redeemed c schedule : forall st r,
  records st !! c = Some r -> status r = Redeemed ->
  fst (consumeAll c schedule st) = map late schedule /\
  records (snd (consumeAll c schedule st)) = records st.
Proof.
  induction schedule as [|x rest IH]; intros st r Hr Hs; [split; reflexivity |].
  cbn [consumeAll].
  destruct (tryConsume_redeemed (io x) c (who x) (at_time x) st r Hr Hs)
    as [Ho Hst].
  destruct (tryConsume (io x) c (who x) (at_time x) st) as [o st1].
  cbn [fst snd] in Ho, Hst.
  assert (Hr1 : records st1 !! c = Some r) by (rewrite Hst; exact Hr).
  destruct (IH st1 r Hr1 Hs) as [Hos Hst2].
  destruct (consumeAll c rest st1) as [os st2]. cbn [fst snd] in *.
  split.
  - rewrite Hos, Ho. cbn [map]. unfold late at 2, reached.
    destruct (io x); reflexivity.
  - rewrite Hst2. exact Hst.
Qed.

(** Calls on an unredeemed record: the calls whose I/O fails get
    StorageError, the first call that reaches the store gets Consumed and
    redeems the record, the calls after it are calls on a redeemed
    record. *)
Lemma consumeAll_unredeemed c schedule : forall st r,
  records st !! c = Some r -> status r = Unredeemed ->
  (Forall (fun x => reached x = false) schedule /\
   fst (consumeAll c schedule st) = map failed schedule /\
   records (snd (consumeAll c schedule st)) = records st)
  \/ (exists pre x post,
        schedule = pre ++ x :: post /\
        Forall (fun x => reached x = false) pre /\
        reached x = true /\
        fst (consumeAll c schedule st)
          = map failed pre ++ (x, Consumed (payload r)) :: map late post /\
        records (snd (consumeAll c schedule st)) !! c
          = Some (redeemed r (who x) (at_time x))).
Proof.
  induction schedule as [|x rest IH]; intros st r Hr Hs.
  { left. repeat split. constructor. }
  cbn [consumeAll]. destruct (io x) eqn:Hio.
  - destruct (tryConsume_unredeemed c (who x) (at_time x) st r Hr Hs)
      as [Ho Hst].
    destruct (tryConsume Reached c (who x) (at_time x) st) as [o st1].
    cbn [fst snd] in Ho, Hst.
    assert (Hr1 : records st1 !! c = Some (redeemed r (who x) (at_time x)))
      by (rewrite Hst; apply lookup_insert_eq).
    destruct (consumeAll_redeemed c rest st1 _ Hr1 eq_refl) as [Hos Hst2].
    destruct (consumeAll c rest st1) as [os st2]. cbn [fst snd] in *.
    right. exists [], x, rest. repeat split.
    + constructor.
    + unfold reached. rewrite Hio. reflexivity.
    + rewrite Ho, Hos. reflexivity.
    + rewrite Hst2. exact Hr1.
  - destruct (tryConsume_failure c (who x) (at_time x) st) as [Ho Hst].
    destruct (tryConsume IOFailure c (who x) (at_time x) st) as [o st1].
    cbn [fst snd] in Ho, Hst.
    assert (Hr1 : records st1 !! c = Some r) by (rewrite Hst; exact Hr).
    assert (Hx : reached x = false) by (unfold reached; rewrite Hio; reflexivity).
    destruct (IH st1 r Hr1 Hs)
      as [(Hall & Hos & Hst2)|(pre & y & post & -> & Hpre & Hy & Hos & Hst2)];
      destruct (consumeAll c _ st1) as [os st2]; cbn [fst snd] in *.
    + left. repeat split.
      * constructor; assumption.
      * rewrite Hos, Ho. reflexivity.
      * rewrite Hst2. exact Hst.
    + right. exists (x :: pre), y, post. repeat split.
      * constructor; assumption.
      * exact Hy.
      * rewrite Hos, Ho. reflexivity.
      * exact Hst2.
Qed.

Lemma count_app (f : Caller * Consume -> bool) a b :
  length (List.filter f (a ++ b))
  = length (List.filter f a) + length (List.filter f b).
Proof. rewrite List.filter_app, length_app. reflexivity. Qed.

Lemma consumedCount_failed l : consumedCount (map failed l) = 0.
Proof.
  unfold consumedCount. induction l as [|x l IH]; [reflexivity | exact IH].
Qed.

Lemma consumedCount_late l : consumedCount (map late l) = 0.
Proof.
  unfold consumedCount. induction l as [|x l IH]; [reflexivity |].
  cbn. unfold late at 1. cbn. destruct (reached x); exact IH.
Qed.

Lemma alreadyRedeemedCount_failed l : alreadyRedeemedCount (map failed l) = 0.
Proof.
  unfold alreadyRedeemedCount. induction l as [|x l IH];
    [reflexivity | exact IH].
Qed.

Lemma alreadyRedeemedCount_late l :
  Forall (fun x => reached x = true) l ->
  alreadyRedeemedCount (map late l) = length l.
Proof.
  unfold alreadyRedeemedCount. induction 1 as [|x l Hx _ IH]; [reflexivity |].
  cbn. unfold late at 1. rewrite Hx. cbn. rewrite IH. reflexivity.
Qed.

Lemma in_failed x o l : In (x, o) (map failed l) -> o = StorageError.
Proof.
  intros H. apply in_map_iff in H as (y & [= _ <-] & _). reflexivity.
Qed.

Lemma in_late x o l :
  In (x, o) (map late l) ->
  o = match io x with Reached => AlreadyRedeemed | IOFailure => StorageError end.
Proof.
  intros H. apply in_map_iff in H as (y & [= <- <-] & _).
  unfold reached. destruct (io y); reflexivity.
Qed.

Lemma reached_io x : reached x = true <-> io x = Reached.
Proof. unfold reached. destruct (io x); split; congruence. Qed.

(** C1.  Take a code whose record is Unredeemed and N calls of
    [tryConsume] on it, issued together and run in any order ([tryConsume]
    is atomic).  When the calls reach the store (an I/O failure is the
    separate StorageError case) and N is at least 1, exactly one call
    returns Consumed, the other N-1 return AlreadyRedeemed, and the
    record's final [redeemedBy] is the requester of the call that returned
    Consumed.  Whatever the I/O, at most one call returns Consumed, a call
    that does is the final [redeemedBy], and a call whose I/O fails
    returns StorageError. *)
Theorem exactly_once st c r calls schedule :
  records st !! c = Some r ->
  status r = Unredeemed ->
  Permutation calls schedule ->
  let res := consumeAll c schedule st in
  consumedCount (fst res) <= 1 /\
  (forall x o, In (x, o) (fst res) -> io x = IOFailure -> o = StorageError) /\
  (forall x p,
      In (x, Consumed p) (fst res) ->
      In x calls /\ p = payload r /\
      redeemedBy <$> records (snd res) !! c = Some (Some (who x))) /\
  (Forall (fun x => io x = Reached) calls ->
   1 <= length calls ->
   consumedCount (fst res) = 1 /\
   alreadyRedeemedCount (fst res) = length calls - 1 /\
   exists x,
     In x calls /\ In (x, Consumed (payload r)) (fst res) /\
     redeemedBy <$> records (snd res) !! c = Some (Some (who x))).
Proof.
  intros Hr Hs Hperm res. subst res.
  destruct (consumeAll_unredeemed c schedule st r Hr Hs)
    as [(Hall & Hres & Hst)|(pre & y & post & Hsched & Hpre & Hy & Hres & Hst)].
  - rewrite Hres. split; [| split; [| split]].
    + rewrite consumedCount_failed. lia.
    + intros x o Hin _. exact (in_failed _ _ _ Hin).
    + intros x p Hin. apply in_failed in Hin. discriminate Hin.
    + intros Hok Hlen. exfalso.
      apply (Permutation_Forall Hperm) in Hok.
      apply Permutation_length in Hperm.
      destruct schedule as [|x rest]; [cbn in Hperm; lia |].
      inversion Hall as [|? ? Hx _]; subst.
      inversion Hok as [|? ? Hx' _]; subst.
      apply reached_io in Hx'. congruence.
  - rewrite Hres, Hst. cbn [fmap option_fmap option_map redeemed redeemedBy].
    assert (Hcount : consumedCount
              (map failed pre ++ (y, Consumed (payload r)) :: map late post)
            = 1).
    { unfold consumedCount. rewrite count_app. cbn.
      fold (consumedCount (map failed pre)).
      fold (consumedCount (map late post)).
      rewrite consumedCount_failed, consumedCount_late. reflexivity. }
    assert (Hyin : In y calls).
    { apply (Permutation_in y (Permutation_sym Hperm)). rewrite Hsched.
      apply in_or_app. right. left. reflexivity. }
    split; [| split; [| split]].
    + rewrite Hcount. lia.
    + intros x o Hin Hio. apply in_app_or in Hin as [Hin|[Hin|Hin]].
      * exact (in_failed _ _ _ Hin).
      * injection Hin as <- <-. apply reached_io in Hy. congruence.
      * apply in_late in Hin. rewrite Hio in Hin. exact Hin.
    + intros x p Hin. apply in_app_or in Hin as [Hin|[Hin|Hin]].
      * apply in_failed in Hin. discriminate Hin.
      * injection Hin as <- <-. auto.
      * apply in_late in Hin. destruct (io x); discriminate Hin.
    + intros Hok Hlen.
      apply (Permutation_Forall Hperm) in Hok.
      apply Permutation_length in Hperm.
      rewrite Hsched in Hok. apply Forall_app in Hok as [Hokpre Hokpost].
      assert (pre = []) as ->.
      { destruct pre as [|z pre']; [reflexivity |].
        inversion Hpre as [|? ? Hz _]; subst.
        inversion Hokpre as [|? ? Hz' _]; subst.
        apply reached_io in Hz'. congruence. }
      inversion Hokpost as [|? ? _ Hpost]; subst.
      split; [exact Hcount |]. split.
      * unfold alreadyRedeemedCount. cbn.
        fold (alreadyRedeemedCount (map late post)).
        rewrite alreadyRedeemedCount_late.
        -- rewrite Hperm. cbn. lia.
        -- eapply Forall_impl; [exact Hpost |].
           intros z Hz. apply reached_io. exact Hz.
      * exists y. split; [exact Hyin |]. split; [| reflexivity].
        left. reflexivity.
Qed.

(** The store of the end-to-end scenario, before and after U1's
    redemption. *)
Definition coupon : CouponRecord :=
  {| code := "ABC123"; status := Unredeemed; redeemedBy := None;
     redeemedAt := None; payload := "gift" |}.

Definition seeded : Storage :=
  {| records := {[ "ABC123" := coupon ]}; consumeCalls := [] |}.


Definition caller (n : string) (t : Timestamp) (i : IO) : Caller :=
  {| who := n; at_time := t; io := i |}.

Lemma exactly_once_witness :
  let calls := [caller "U1" 10 Reached; caller "U2" 11 Reached;
                caller "U3" 12 Reached] in
  let schedule := [caller "U2" 11 Reached; caller "U3" 12 Reached;
                   caller "U1" 10 Reached] in
  records seeded !! "ABC123" = Some coupon /\
  status coupon = Unredeemed /\
  Permutation calls schedule /\
  consumedCount (fst (consumeAll "ABC123" schedule seeded)) = 1 /\
  alreadyRedeemedCount (fst (consumeAll "ABC123" schedule seeded)) = 2 /\
  redeemedBy <$> records (snd (consumeAll "ABC123" schedule seeded))
                   !! "ABC123" = Some (Some "U2").
Proof.
  intros calls schedule.
  assert (H1 : records seeded !! "ABC123" = Some coupon) by reflexivity.
  assert (H2 : status coupon = Unredeemed) by reflexivity.
  assert (H3 : Permutation calls schedule).
  { subst calls schedule.
    apply (Permutation_cons_append
             [caller "U2" 11 Reached; caller "U3" 12 Reached]
             (caller "U1" 10 Reached)). }
  assert (H4 : Forall (fun x => io x = Reached) calls)
    by (repeat constructor).
  assert (H5 : 1 <= length calls) by (cbn; lia).
  destruct (exactly_once seeded "ABC123" coupon calls schedule H1 H2 H3)
    as (_ & _ & _ & Hall).
  destruct (Hall H4 H5) as (Hc & Ha & _).
  split; [exact H1 |]. split; [exact H2 |]. split; [exact H3 |].
  split; [exact Hc |]. split; [exact Ha |].
  vm_compute. reflexivity.
Defined.







End CoreFacts.

(** * Facts about the codec, the engine and the listener *)

Module EngineFacts.
Import DataModel RequestCodec RedemptionEngine ListenerAdapter.

(** A text with more than one token: two characters that are not white
    space with white space somewhere between them. *)
Definition severalTokens (l : list ascii) : Prop :=
  exists a c1 m ws m' c2 b,
    l = a ++ c1 :: m ++ ws :: m' ++ c2 :: b /\
    isSpace c1 = false /\ isSpace ws = true /\ isSpace c2 = false.

Lemma trimLeft_spaces l :
  Forall (fun c => isSpace c = true) l -> trimLeft l = [].
Proof.
  induction 1 as [|c l Hc _ IH]; [reflexivity |]. cbn. rewrite Hc. exact IH.
Qed.

Lemma trimLeft_keeps a c l :
  isSpace c = false -> exists a', trimLeft (a ++ c :: l) = a' ++ c :: l.
Proof.
  intros Hc. induction a as [|x a IH].
  - exists []. cbn. rewrite Hc. reflexivity.
  - cbn. destruct (isSpace x).
    + exact IH.
    + exists (x :: a). reflexivity.
Qed.

Lemma trimRight_keeps l c b :
  isSpace c = false -> exists b', trimRight (l ++ c :: b) = l ++ c :: b'.
Proof.
  intros Hc. unfold trimRight.
  rewrite rev_app_distr. cbn [rev]. rewrite <- app_assoc. cbn [app].
  destruct (trimLeft_keeps (rev b) c (rev l) Hc) as [a' ->].
  exists (rev a'). rewrite rev_app_distr. cbn [rev].
  rewrite rev_involutive, <- app_assoc. reflexivity.
Qed.

Lemma trim_severalTokens l :
  severalTokens l ->
  exists a' m ws m' b',
    trim l = a' ++ m ++ ws :: m' ++ b' /\ isSpace ws = true.
Proof.
  intros (a & c1 & m & ws & m' & c2 & b & -> & H1 & Hw & H2).
  unfold trim.
  destruct (trimLeft_keeps a c1 (m ++ ws :: m' ++ c2 :: b) H1) as [a' ->].
  replace (a' ++ c1 :: m ++ ws :: m' ++ c2 :: b)
    with ((a' ++ c1 :: m ++ ws :: m') ++ c2 :: b)
    by (rewrite <- !app_assoc; cbn; rewrite <- !app_assoc; reflexivity).
  destruct (trimRight_keeps (a' ++ c1 :: m ++ ws :: m') c2 b H2) as [b' ->].
  exists (a' ++ [c1]), m, ws, m', (c2 :: b'). split; [| exact Hw].
  rewrite <- !app_assoc. cbn. rewrite <- !app_assoc. reflexivity.
Qed.

Lemma decode_blank n raw who now :
  Forall (fun c => isSpace c = true) (list_ascii_of_string raw) ->
  decode n raw who now = None.
Proof.
  intros H. unfold decode, trim. rewrite (trimLeft_spaces _ H). reflexivity.
Qed.

Lemma decode_severalTokens n raw who now :
  severalTokens (list_ascii_of_string raw) -> decode n raw who now = None.
Proof.
  intros H. unfold decode.
  destruct (trim_severalTokens _ H) as (a' & m & ws & m' & b' & -> & Hw).
  destruct (bool_decide _); [reflexivity |].
  rewrite !existsb_app. cbn. rewrite Hw.
  rewrite !orb_true_r. reflexivity.
Qed.

Example decode_examples :
  decode 16 "" "U1" 0 = None /\
  decode 16 "   " "U1" 0 = None /\
  decode 16 "abc 123" "U1" 0 = None /\
  decode 4 "abc123" "U1" 0 = None /\
  decode 16 "  abc123 " "U1" 5
    = Some {| requesterIdentity := "U1"; rawCode := "ABC123";
              receivedAt := 5 |}.
Proof. vm_compute. repeat split; reflexivity. Qed.

(** C3.  A text that is empty, all white space, or of more than one token
    does not decode; and whenever the decode fails the engine answers
    Malformed and the storage is exactly as before, its record of
    [tryConsume] invocations included: the listener replies
    MALFORMED_REQUEST to the sender without a storage call. *)
Theorem malformed_never_touches_storage n raw :
  raw = "" \/
  Forall (fun c => isSpace c = true) (list_ascii_of_string raw) \/
  severalTokens (list_ascii_of_string raw) ->
  (forall who now, decode n raw who now = None) /\
  (forall raw' who now io delivered st,
      decode n raw' who now = None ->
      redeem io now (decode n raw' who now) st = (malformed, st) /\
      outcome (fst (redeem io now (decode n raw' who now) st)) = Malformed /\
      StorageAdapter.consumeCalls
        (snd (redeem io now (decode n raw' who now) st))
        = StorageAdapter.consumeCalls st /\
      hear n io now delivered {| sender := who; text := raw' |} st
        = ({| recipient := who; body := "MALFORMED_REQUEST" |},
           delivered, st)).
Proof.
  intros H. split.
  - intros who now. destruct H as [->|[H|H]].
    + reflexivity.
    + exact (decode_blank _ _ _ _ H).
    + exact (decode_severalTokens _ _ _ _ H).
  - intros raw' who now io delivered st Hd.
    unfold hear. cbn [sender text]. rewrite Hd. cbn.
    repeat split; reflexivity.
Qed.

Lemma malformed_never_touches_storage_witness :
  severalTokens (list_ascii_of_string "abc 123") /\
  decode 16 "abc 123" "U1" 0 = None /\
  hear 16 StorageAdapter.Reached 0 true
       {| sender := "U1"; text := "abc 123" |} CoreFacts.seeded
    = ({| recipient := "U1"; body := "MALFORMED_REQUEST" |}, true,
       CoreFacts.seeded).
Proof.
  assert (H : severalTokens (list_ascii_of_string "abc 123")).
  { exists [], "a"%char, ["b"; "c"]%char, " "%char, [], "1"%char,
      ["2"; "3"]%char.
    repeat split; reflexivity. }
  destruct (malformed_never_touches_storage 16 "abc 123" (or_intror (or_intror H)))
    as [Hd Hs].
  split; [exact H |]. split; [exact (Hd "U1" 0%Z) |].
  exact (proj2 (proj2 (proj2
    (Hs "abc 123" "U1" 0%Z StorageAdapter.Reached true CoreFacts.seeded
        (Hd "U1" 0%Z))))).
Defined.

(** The five texts of the outbound message. *)
Definition fixedText (m : string) : Prop :=
  (exists p, m = String.append "SUCCESS: " p) \/
  m = "ALREADY_REDEEMED" \/ m = "NOT_FOUND" \/
  m = "MALFORMED_REQUEST" \/ m = "TEMPORARY_ERROR".

Lemma template_fixed o p : fixedText (template o p).
Proof.
  unfold fixedText. destruct o; cbn; eauto 6.
Qed.

Lemma resultOf_inj o1 o2 : resultOf o1 = resultOf o2 -> o1 = o2.
Proof.
  destruct o1, o2; cbn; intros H; try discriminate H; try reflexivity.
  injection H as H _. congruence.
Qed.

(** C4.  For a decoded request the engine calls [tryConsume] once, with the
    request's code and requester, keeps the storage that call leaves, and
    maps its outcome one to one: Consumed to Success with the payload,
    AlreadyRedeemed, NotFound and StorageError to the outcome of the same
    name (different storage outcomes give different results).  The
    message of the result is the text [encode] sends, and for every
    request, decoded or not, that text is one of the five fixed ones. *)
Theorem outcome_mapping io now req st :
  let call := StorageAdapter.tryConsume io (rawCode req)
                (requesterIdentity req) now st in
  let res := fst (redeem io now (Some req) st) in
  snd (redeem io now (Some req) st) = snd call /\
  StorageAdapter.consumeCalls (snd (redeem io now (Some req) st))
    = {| StorageAdapter.callCode := rawCode req;
         StorageAdapter.callBy := requesterIdentity req;
         StorageAdapter.callAt := now |}
        :: StorageAdapter.consumeCalls st /\
  match fst call with
  | StorageAdapter.Consumed p =>
      outcome res = Success /\ reward res = Some p /\
      encode res = String.append "SUCCESS: " p
  | StorageAdapter.AlreadyRedeemed =>
      outcome res = AlreadyRedeemed /\ reward res = None /\
      encode res = "ALREADY_REDEEMED"
  | StorageAdapter.NotFound =>
      outcome res = NotFound /\ reward res = None /\
      encode res = "NOT_FOUND"
  | StorageAdapter.StorageError =>
      outcome res = StorageError /\ reward res = None /\
      encode res = "TEMPORARY_ERROR"
  end /\
  humanMessage res = encode res /\
  (forall o1 o2, resultOf o1 = resultOf o2 -> o1 = o2) /\
  (forall decoded, fixedText (encode (fst (redeem io now decoded st)))) /\
  (forall n delivered m,
      fixedText (body (fst (fst (hear n io now delivered m st)))) /\
      recipient (fst (fst (hear n io now delivered m st))) = sender m).
Proof.
  intros call res. subst call res. unfold redeem.
  assert (Hcalls : forall c w_ t,
    StorageAdapter.consumeCalls
      (snd (StorageAdapter.tryConsume io c w_ t st))
    = {| StorageAdapter.callCode := c; StorageAdapter.callBy := w_;
         StorageAdapter.callAt := t |} :: StorageAdapter.consumeCalls st).
  { intros c w_ t. unfold StorageAdapter.tryConsume.
    destruct io; [| reflexivity].
    destruct (StorageAdapter.records st !! c) as [r|]; [| reflexivity].
    destruct (status r); reflexivity. }
  specialize (Hcalls (rawCode req) (requesterIdentity req) now).
  destruct (StorageAdapter.tryConsume io (rawCode req)
              (requesterIdentity req) now st) as [o st'].
  cbn [fst snd] in *.
  split; [reflexivity |]. split; [exact Hcalls |].
  split; [destruct o; repeat split; reflexivity |].
  split; [destruct o; reflexivity |].
  split; [exact resultOf_inj |].
  split.
  - intros decoded. unfold encode. apply template_fixed.
  - intros n delivered m. unfold hear.
    destruct (redeem io now _ st) as [res st2]. cbn.
    split; [apply template_fixed | reflexivity].
Qed.





(** The end-to-end scenario of the specification. *)
Example end_to_end :
  let '(reply1, _, st1) :=
    hear 16 StorageAdapter.Reached 10 true
         {| sender := "U1"; text := "abc123" |} CoreFacts.seeded in
  let '(reply2, _, st2) :=
    hear 16 StorageAdapter.Reached 11 true
         {| sender := "U2"; text := "ABC123" |} st1 in
  reply1 = {| recipient := "U1"; body := "SUCCESS: gift" |} /\
  reply2 = {| recipient := "U2"; body := "ALREADY_REDEEMED" |} /\
  redeemedBy <$> StorageAdapter.records st2 !! "ABC123" = Some (Some "U1").
Proof. vm_compute. repeat split; reflexivity. Qed.

End EngineFacts.

(** * More about the start-up command

    What [initConfig], [initLog] and [Run] do beyond the facts above: how
    the log is set up, what [validConfig] tells, in which order [Run]
    reaches its collaborators and with which values. *)

Module RunFacts.
Import Bootstrap BootstrapFacts.

Section More.

Context {Storage Client : Type}.

Abbreviation Event := (@Event Storage Client).
Abbreviation M := (@M Storage Client).

Context (w : @World Storage Client).

Ltac run := cbv beta iota delta [bind emit ret get put Panicf].

Ltac fields :=
  cbn [cfgFile logPath validConfig viper configFile automaticEnv config
       globals trace ending fst snd].

Ltac in_list := cbn; repeat (first [left; reflexivity | right]).

Ltac not_in_list := cbn; intuition (try discriminate; try congruence).

(** The thresholds and the environment variables a trace sets, in order. *)
Definition thresholds (t : list Event) : list (Threshold + Threshold) :=
  omap (fun e => match e with
                 | ESetLogThreshold l => Some (inl l)
                 | ESetStdoutThreshold l => Some (inr l)
                 | _ => None
                 end) t.

Definition setenvs (t : list Event) : list (string * string) :=
  omap (fun e => match e with
                 | ESetenv name value => Some (name, value)
                 | _ => None
                 end) t.

Ltac exec_initLog :=
  unfold initLog, GetUint, GetString, set_logPath; run; fields;
  destruct (1 <? _)%N eqn:?; run; fields;
  [ destruct (setenv w "GRPC_GO_LOG_SEVERITY_LEVEL" "info"); run; fields;
    destruct (setenv w "GRPC_GO_LOG_VERBOSITY_LEVEL" "99"); run; fields
  | destruct (_ =? 1)%N eqn:?; run; fields ];
  destruct (openFile w _) eqn:?; run; fields.

(** [initLog] always returns: a failing [os.Setenv] or [os.OpenFile] is
    reported and passed over.  It changes [logPath], to the [log] setting,
    and nothing else of the globals, and writes no fatal line. *)
Theorem initLog_never_halts g :
  ending (initLog w g) = Done tt /\
  globals (initLog w g)
    = {| cfgFile := cfgFile g; logPath := getString w (viper g) "log";
         validConfig := validConfig g; viper := viper g |} /\
  (forall f, ~ In (EFatal f) (trace (initLog w g))).
Proof.
  exec_initLog.
  all: split; [reflexivity |]; split; [reflexivity |]; intros f; not_in_list.
Qed.

(** The log level decides the thresholds: 0 gives Info, 1 gives Debug, 2
    and more give Trace.  The log threshold and the stdout threshold are
    each set once, to the same level, and the two gRPC variables are set
    exactly when the level is above 1, both of them even when setting the
    first one fails. *)
Theorem initLog_thresholds g :
  let lvl := getUint w (viper g) "logLevel" in
  let t := trace (initLog w g) in
  (lvl = 0%N ->
     thresholds t = [inl LevelInfo; inr LevelInfo] /\ setenvs t = []) /\
  (lvl = 1%N ->
     thresholds t = [inl LevelDebug; inr LevelDebug] /\ setenvs t = []) /\
  ((2 <= lvl)%N ->
     thresholds t = [inl LevelTrace; inr LevelTrace] /\
     setenvs t = [("GRPC_GO_LOG_SEVERITY_LEVEL", "info");
                  ("GRPC_GO_LOG_VERBOSITY_LEVEL", "99")]).
Proof.
  intros lvl t. subst lvl t.
  exec_initLog.
  all: repeat match goal with
         | H : (_ <? _)%N = true |- _ => apply N.ltb_lt in H
         | H : (_ <? _)%N = false |- _ => apply N.ltb_ge in H
         | H : (_ =? _)%N = true |- _ => apply N.eqb_eq in H
         | H : (_ =? _)%N = false |- _ => apply N.eqb_neq in H
         end.
  all: split; [| split]; intros Hl; try lia; split; reflexivity.
Qed.

(** The log goes to the file of the [log] setting exactly when that file
    can be opened; when it cannot, a line says so and the log output is
    left alone.  No other file is opened. *)
Theorem initLog_output g :
  let p := getString w (viper g) "log" in
  let t := trace (initLog w g) in
  (forall q, In (EOpenFile q) t <-> q = p) /\
  (forall q, In (ESetLogOutput q) t <-> q = p /\ openFile w p = None) /\
  (forall q, In (EPrintf (CouldNotOpenLog q)) t
             <-> q = p /\ exists e, openFile w p = Some e).
Proof.
  intros p t. subst p t.
  exec_initLog.
  all: split; [| split]; intros q; (split; [cbn; intros Hin | intros Hq]).
  all: try (repeat (destruct Hin as [Hin|Hin];
                    [try discriminate Hin; try injection Hin as <- |]);
            try contradiction; eauto; fail).
  all: try (subst q; in_list; fail).
  all: destruct Hq as [-> Ho]; try discriminate Ho.
  all: try (destruct Ho as [? Ho]; discriminate Ho).
  all: in_list.
Qed.

(** After [initConfig], [validConfig] is true exactly when the config file
    was located and read: a panic on the path and a failed read both leave
    it false, whatever it held before. *)
Theorem validConfig_tells g :
  validConfig (globals (initConfig w g)) = true <->
  exists p c, configPath w g = Ok p /\ readInConfig w p = Ok c.
Proof.
  destruct (configPath w g) as [p|e] eqn:Hp.
  - rewrite (initConfig_found w _ _ Hp).
    destruct (readInConfig w p) as [c|e] eqn:Hr; fields.
    + split; [intros _; exists p, c; auto | reflexivity].
    + split; [discriminate |].
      intros (p' & c & [= <-] & Hc). rewrite Hr in Hc. discriminate Hc.
  - rewrite (initConfig_not_found w _ _ Hp). fields.
    split; [discriminate | intros (p' & c & [=] & _)].
Qed.

(** When the config file is located and read, [initConfig] returns with
    [cfgFile] and viper pointing at the path found, [logPath] untouched,
    the settings that the read returned in place of whatever viper held,
    and the environment switched on: a key with a non-empty matching
    environment variable reads as that variable. *)
Theorem settings_after_initConfig g p c :
  configPath w g = Ok p ->
  readInConfig w p = Ok c ->
  let g' := globals (initConfig w g) in
  ending (initConfig w g) = Done tt /\
  cfgFile g' = p /\ configFile (viper g') = p /\ logPath g' = logPath g /\
  config (viper g') = c /\ automaticEnv (viper g') = true /\
  (forall key v, envValue w key = Some v -> getString w (viper g') key = v).
Proof.
  intros Hp Hr g'. subst g'.
  rewrite (initConfig_found w _ _ Hp), Hr. fields.
  unfold getString, viperFind. fields.
  repeat (split; [reflexivity |]).
  intros key v ->. reflexivity.
Qed.

(** When the config file path cannot be found or expanded, [Run] stops in
    [initConfig]: it has made one call, written one fatal line, cleared
    [cfgFile] and [validConfig], and has set up neither the log nor the
    storage. *)
Theorem missing_config_stops_run g e :
  configPath w g = Err e ->
  Run w g =
    ({| cfgFile := ""; logPath := logPath g; validConfig := false;
        viper := viper g |},
     [pathEvent g; EFatal (pathFatal g e)], Panic (pathFatal g e)) /\
  thresholds (trace (Run w g)) = [] /\
  (forall q, ~ In (EOpenFile q) (trace (Run w g))) /\
  (forall sp, ~ In (ENewStorage sp) (trace (Run w g))).
Proof.
  intros Hp.
  assert (HR : Run w g =
    ({| cfgFile := ""; logPath := logPath g; validConfig := false;
        viper := viper g |},
     [pathEvent g; EFatal (pathFatal g e)], Panic (pathFatal g e))).
  { unfold Run, initializeConfigAndLogging.
    erewrite bind_Panic; [reflexivity |].
    erewrite bind_Panic; [reflexivity |].
    exact (initConfig_not_found w _ _ Hp). }
  split; [exact HR |]. rewrite HR. fields. unfold pathEvent.
  destruct (decide (cfgFile g = "")); repeat split; intros q; not_in_list.
Qed.

(** ** After config and log *)

(** What [Run] does once config and log are initialized. *)
Definition afterConfig : M unit :=
  bind (getDatabaseParameters w)
       (fun sp => bind (initializeStorage w sp) (fun s => serve w s)).

Lemma Run_afterConfig g g1 t1 :
  initializeConfigAndLogging w g = (g1, t1, Done tt) ->
  Run w g = (globals (afterConfig g1), t1 ++ trace (afterConfig g1),
             ending (afterConfig g1)).
Proof.
  intros H. unfold Run. rewrite (bind_Done _ _ _ _ _ _ H). reflexivity.
Qed.

Lemma Run_early g g1 t1 f :
  initializeConfigAndLogging w g = (g1, t1, Panic f) ->
  Run w g = (g1, t1, Panic f).
Proof. intros H. unfold Run. exact (bind_Panic _ _ _ _ _ _ H). Qed.

Ltac exec_afterConfig :=
  unfold afterConfig, getDatabaseParameters, initializeStorage, serve,
    createClient, createClientObject, generateQR, startFollower,
    registerListener, GetString, GetInt;
  run;
  repeat
    (match goal with
     | |- context [decide (getString w ?v ?k = "")] =>
         destruct (decide (getString w v k = ""))
     | |- context [splitHostPort w ?a] =>
         destruct (splitHostPort w a) as [[? ?]|?] eqn:?
     | |- context [newStorage w ?a] => destruct (newStorage w a) eqn:?
     | |- context [statIsNotExist w ?a] =>
         destruct (statIsNotExist w a) eqn:?
     | |- context [readFile w ?a] => destruct (readFile w a) eqn:?
     | |- context [newClient w ?a ?b ?c ?d] =>
         destruct (newClient w a b c d) eqn:?
     | |- context [login w ?a ?b] => destruct (login w a b) eqn:?
     | |- context [makeQR w ?a ?b ?c] => destruct (makeQR w a b c) eqn:?
     | |- context [writeFile w ?a ?b] => destruct (writeFile w a b) eqn:?
     | |- context [startNetworkFollower w ?a ?b] =>
         destruct (startNetworkFollower w a b) eqn:?
     end; run);
  fields.

(** Once config and log are initialized, [Run] reads the globals and never
    writes them: however it ends, [cfgFile], [logPath], [validConfig] and
    viper are as [initLog] left them. *)
Theorem globals_settled g g1 t1 :
  initializeConfigAndLogging w g = (g1, t1, Done tt) ->
  globals (Run w g) = g1.
Proof.
  intros H. rewrite (Run_afterConfig _ _ _ H). fields.
  exec_afterConfig. all: reflexivity.
Qed.

(** With a database address that [net.SplitHostPort] accepts, the storage
    is asked for right after the split, with the host and the port it
    returned and with the user name, password and database name of the
    settings. *)
Theorem database_address_split g g1 t1 host port :
  initializeConfigAndLogging w g = (g1, t1, Done tt) ->
  getString w (viper g1) "dbAddress" <> "" ->
  splitHostPort w (getString w (viper g1) "dbAddress") = Ok (host, port) ->
  exists t2,
    trace (Run w g) =
      t1 ++ ESplitHostPort (getString w (viper g1) "dbAddress")
         :: ENewStorage {| Username := getString w (viper g1) "dbUsername";
                           Password := getString w (viper g1) "dbPassword";
                           DBName := getString w (viper g1) "dbName";
                           Address := host; Port := port |}
         :: t2.
Proof.
  intros H Hne Hsplit. rewrite (Run_afterConfig _ _ _ H). fields.
  revert Hne Hsplit. exec_afterConfig.
  all: intros Hne Hsplit; try contradiction; try discriminate Hsplit.
  all: injection Hsplit as <- <-; eexists; cbn; reflexivity.
Qed.

(** An existing session is left alone: when [os.Stat] finds the session
    path, [Run] neither reads the NDF nor calls [api.NewClient]. *)
Theorem existing_session_kept g g1 t1 :
  initializeConfigAndLogging w g = (g1, t1, Done tt) ->
  statIsNotExist w (getString w (viper g1) "sessionPath") = false ->
  (forall p, ~ In (EReadFile p) (trace (Run w g))) /\
  (forall ndf sp pw, ~ In (ENewClient ndf sp pw) (trace (Run w g))).
Proof.
  intros H Hstat.
  destruct (initializeConfigAndLogging_emits w _ _ _ _ H) as [F _].
  rewrite List.Forall_forall in F.
  rewrite (Run_afterConfig _ _ _ H). fields.
  revert Hstat. exec_afterConfig.
  all: intros Hstat; try discriminate Hstat.
  all: split; [intros p Hin | intros ndf sp pw Hin].
  all: apply in_app_or in Hin as [Hin|Hin]; [exact (F _ Hin) |].
  all: revert Hin; not_in_list.
Qed.

(** [api.Login] is called only on the session path and password of the
    settings, and only when [os.Stat] did not report that path as missing
    ([os.IsNotExist] false: the path is there, or [os.Stat] failed in
    another way) or [api.NewClient] has just created the session from the
    NDF file; in any case only in a run in which [storage.NewStorage] was
    called and returned a storage object. *)
Theorem login_needs_session_and_storage g g1 t1 p q :
  initializeConfigAndLogging w g = (g1, t1, Done tt) ->
  In (ELogin p q) (trace (Run w g)) ->
  p = getString w (viper g1) "sessionPath" /\
  q = getString w (viper g1) "sessionPass" /\
  (statIsNotExist w p = false \/
   exists ndf,
     readFile w (getString w (viper g1) "ndf") = Ok ndf /\
     newClient w ndf p q "" = None) /\
  (exists sp s, In (ENewStorage sp) (trace (Run w g)) /\
                newStorage w sp = Ok s).
Proof.
  intros H.
  destruct (initializeConfigAndLogging_emits w _ _ _ _ H) as [F _].
  rewrite List.Forall_forall in F.
  rewrite (Run_afterConfig _ _ _ H). fields.
  exec_afterConfig.
  all: intros Hin; apply in_app_or in Hin as [Hin|Hin];
    [destruct (F _ Hin) |].
  all: cbn in Hin.
  all: repeat (destruct Hin as [Hin|Hin];
               [try discriminate Hin |]); try contradiction.
  all: injection Hin as <- <-.
  all: try (exfalso; congruence).
  all: split; [reflexivity |]; split; [reflexivity |]; split;
    [ first [ left; reflexivity
            | left; assumption
            | right; eexists; split; [reflexivity | eassumption] ]
    | eexists _, _; split;
      [apply in_or_app; right; in_list | eassumption] ].
Qed.

(** A start-up that completes has gone, after the session check, through
    login, QR code, QR file, network follower, request callback, listener
    and [select], in that order and with one client: the client that
    [api.Login] returned makes the QR code, starts the follower, is closed
    over by the callback and is handed to the listener together with the
    storage object. *)
Theorem completed_run_order g g1 t1 :
  initializeConfigAndLogging w g = (g1, t1, Done tt) ->
  ending (Run w g) = Done tt ->
  exists pre sp s cl qr,
    newStorage w sp = Ok s /\
    login w (getString w (viper g1) "sessionPath")
            (getString w (viper g1) "sessionPass") = Ok cl /\
    makeQR w cl (getInt w (viper g1) "qrSize")
              (getInt w (viper g1) "qrLevel") = Ok qr /\
    trace (Run w g) =
      t1 ++ pre ++
      [ELogin (getString w (viper g1) "sessionPath")
              (getString w (viper g1) "sessionPass");
       EMakeQR cl (getInt w (viper g1) "qrSize")
                  (getInt w (viper g1) "qrLevel");
       EWriteFile (getString w (viper g1) "qrPath") qr;
       EStartNetworkFollower cl
         (wrap64 (getInt w (viper g1) "networkFollowerTimeout" * 1000000000));
       EAddGeneralRequestCallback (Rcb cl);
       ECouponsNew s cl;
       ERegisterListener ZeroUser Text (New s cl);
       ESelect] /\
    (forall sessionPath sessionPass,
        ~ In (ELogin sessionPath sessionPass) pre).
Proof.
  intros H. rewrite (Run_afterConfig _ _ _ H). fields.
  exec_afterConfig.
  all: intros Hend; try discriminate Hend.
  all: eexists _, _, _, _, _.
  all: split; [eassumption |]; split; [reflexivity |];
    split; [eassumption |].
  all: cbn [app].
  all: split;
    [ first [ instantiate (1 := [_; _]); cbn; reflexivity
            | instantiate (1 := [_; _; _]); cbn; reflexivity
            | instantiate (1 := [_; _; _; _]); cbn; reflexivity
            | instantiate (1 := [_; _; _; _; _]); cbn; reflexivity ]
    | intros sP sW; not_in_list ].
Qed.

(** The QR file is written at the [qrPath] of the settings and holds what
    [MakeQR] generated for the logged-in client with the [qrSize] and
    [qrLevel] of the settings. *)
Theorem qr_written_is_generated g g1 t1 path data :
  initializeConfigAndLogging w g = (g1, t1, Done tt) ->
  In (EWriteFile path data) (trace (Run w g)) ->
  path = getString w (viper g1) "qrPath" /\
  exists cl,
    login w (getString w (viper g1) "sessionPath")
            (getString w (viper g1) "sessionPass") = Ok cl /\
    makeQR w cl (getInt w (viper g1) "qrSize")
              (getInt w (viper g1) "qrLevel") = Ok data.
Proof.
  intros H.
  destruct (initializeConfigAndLogging_emits w _ _ _ _ H) as [F _].
  rewrite List.Forall_forall in F.
  rewrite (Run_afterConfig _ _ _ H). fields.
  exec_afterConfig.
  all: intros Hin; apply in_app_or in Hin as [Hin|Hin];
    [destruct (F _ Hin) |].
  all: cbn in Hin.
  all: repeat (destruct Hin as [Hin|Hin];
               [try discriminate Hin |]); try contradiction.
  all: injection Hin as <- <-.
  all: split; [reflexivity |]; eexists; split; [reflexivity | eassumption].
Qed.

Lemma wrap64_range z :
  (- 2 ^ 63 <= wrap64 z < 2 ^ 63)%Z.
Proof.
  unfold wrap64.
  pose proof (Z.mod_pos_bound (z + 2 ^ 63) (2 ^ 64) ltac:(lia)). lia.
Qed.

Lemma wrap64_small z :
  (- 2 ^ 63 <= z < 2 ^ 63)%Z -> wrap64 z = z.
Proof.
  intros Hz. unfold wrap64. rewrite Z.mod_small by lia. lia.
Qed.

(** The network follower gets the [networkFollowerTimeout] setting turned
    from seconds into nanoseconds in 64 bits: for a setting of at most
    9223372036 seconds in absolute value that is the setting times
    1000000000, beyond that the product wraps around; it always fits 64
    bits. *)
Theorem follower_timeout g g1 t1 cl timeout :
  initializeConfigAndLogging w g = (g1, t1, Done tt) ->
  In (EStartNetworkFollower cl timeout) (trace (Run w g)) ->
  let seconds := getInt w (viper g1) "networkFollowerTimeout" in
  timeout = wrap64 (seconds * 1000000000) /\
  (- 2 ^ 63 <= timeout < 2 ^ 63)%Z /\
  ((- 9223372036 <= seconds <= 9223372036)%Z ->
   timeout = (seconds * 1000000000)%Z).
Proof.
  intros H Hin seconds.
  assert (Ht : timeout = wrap64 (seconds * 1000000000)).
  { subst seconds. revert Hin.
    destruct (initializeConfigAndLogging_emits w _ _ _ _ H) as [F _].
    rewrite List.Forall_forall in F.
    rewrite (Run_afterConfig _ _ _ H). fields.
    exec_afterConfig.
    all: intros Hin; apply in_app_or in Hin as [Hin|Hin];
      [destruct (F _ Hin) |].
    all: cbn in Hin.
    all: repeat (destruct Hin as [Hin|Hin];
                 [try discriminate Hin |]); try contradiction.
    all: injection Hin as _ <-; reflexivity. }
  split; [exact Ht |]. split.
  - rewrite Ht. apply wrap64_range.
  - intros Hs. rewrite Ht. apply wrap64_small. lia.
Qed.

Lemma initLog_quiet g f : ~ In (EFatal f) (trace (initLog w g)).
Proof. exec_initLog. all: not_in_list. Qed.

(** Config and log: a fatal line is written only by a panic of
    [initConfig], as its second and last call. *)
Lemma config_log_fatal g :
  match ending (initializeConfigAndLogging w g) with
  | Done _ =>
      forall f, ~ In (EFatal f) (trace (initializeConfigAndLogging w g))
  | Panic f =>
      trace (initializeConfigAndLogging w g) = [pathEvent g; EFatal f]
  end.
Proof.
  unfold initializeConfigAndLogging.
  destruct (configPath w g) as [p|e] eqn:Hp.
  - pose proof (initConfig_found w _ _ Hp) as Hc.
    assert (Hq : forall f, ~ In (EFatal f) (trace (initConfig w g))).
    { intros f. rewrite Hc. unfold pathEvent.
      destruct (readInConfig w p), (decide (cfgFile g = ""));
        not_in_list. }
    destruct (initConfig w g) as [[gc tc] rc] eqn:Hi.
    assert (rc = Done tt) as ->
      by (destruct (readInConfig w p); injection Hc as _ _ ->; reflexivity).
    rewrite (bind_Done _ _ _ _ _ _ Hi). fields.
    destruct (initLog_done w gc) as (tl & Hl & _).
    pose proof (initLog_quiet gc) as Hlq.
    rewrite Hl in *. fields.
    intros f Hin. apply in_app_or in Hin as [Hin|Hin].
    + exact (Hq f Hin).
    + exact (Hlq f Hin).
  - rewrite (bind_Panic _ _ _ _ _ _ (initConfig_not_found w _ _ Hp)).
    reflexivity.
Qed.

(** [Run] writes a fatal line exactly when it panics, with the panic's own
    message, and the line is the last thing it does: no call follows a
    fatal line, and a start-up that reaches [select] has written none. *)
Theorem fatal_line_is_last g :
  match ending (Run w g) with
  | Done _ => forall f, ~ In (EFatal f) (trace (Run w g))
  | Panic f =>
      exists pre,
        trace (Run w g) = pre ++ [EFatal f] /\
        (forall f', ~ In (EFatal f') pre) /\
        ~ In ESelect pre
  end.
Proof.
  pose proof (config_log_fatal g) as Hc.
  pose proof (initializeConfigAndLogging_emits w g) as He.
  destruct (initializeConfigAndLogging w g) as [[g1 t1] [[]|f]] eqn:H.
  2: { rewrite (Run_early _ _ _ _ H). fields. cbn [trace ending fst snd] in Hc. rewrite Hc.
       exists [pathEvent g]. split; [reflexivity |]. unfold pathEvent.
       destruct (decide (cfgFile g = ""));
         (split; [intros f' Hin | intros Hin]); revert Hin; not_in_list. }
  cbn [trace ending fst snd] in Hc. destruct (He _ _ _ eq_refl) as [F _].
  assert (Hsel : ~ In ESelect t1) by exact (before_not_select _ F).
  rewrite (Run_afterConfig _ _ _ H). fields.
  exec_afterConfig.
  all: try (intros f' Hin; apply in_app_or in Hin as [Hin|Hin];
            [exact (Hc f' Hin) | revert Hin; not_in_list]).
  all: match goal with
       | |- exists pre, ?T ++ ?L = _ /\ _ =>
           exists (T ++ removelast L)
       end.
  all: cbn [app removelast]; split; [rewrite <- app_assoc; reflexivity |].
  all: split; [intros f' Hin | intros Hin];
    (apply in_app_or in Hin as [Hin|Hin];
     [first [exact (Hc f' Hin) | exact (Hsel Hin)]
     | revert Hin; not_in_list]).
Qed.

(** [api.NewClient] is called only to create a missing session: the
    session path of the settings does not exist, and the client is made
    from the content of the NDF file of the settings, for that path and
    the session password. *)
Theorem new_session_from_ndf g g1 t1 ndf sessionPath sessionPass :
  initializeConfigAndLogging w g = (g1, t1, Done tt) ->
  In (ENewClient ndf sessionPath sessionPass) (trace (Run w g)) ->
  sessionPath = getString w (viper g1) "sessionPath" /\
  sessionPass = getString w (viper g1) "sessionPass" /\
  statIsNotExist w sessionPath = true /\
  readFile w (getString w (viper g1) "ndf") = Ok ndf.
Proof.
  intros H.
  destruct (initializeConfigAndLogging_emits w _ _ _ _ H) as [F _].
  rewrite List.Forall_forall in F.
  rewrite (Run_afterConfig _ _ _ H). fields.
  exec_afterConfig.
  all: intros Hin; apply in_app_or in Hin as [Hin|Hin];
    [destruct (F _ Hin) |].
  all: cbn in Hin.
  all: repeat (destruct Hin as [Hin|Hin];
               [try discriminate Hin |]); try contradiction.
  all: injection Hin as <- <- <-.
  all: try (exfalso; congruence).
  all: repeat split; first [reflexivity | assumption].
Qed.

End More.

(** ** Concrete machines *)

Definition machineWith (search : result string)
    (file : result (gmap string string)) (toInt : string -> Z)
    (split : result (string * string)) (sessionMissing : bool)
    : @World nat nat :=
  {| searchDefaultLocations := fun _ _ => search;
     expandPath := fun p => Ok p;
     readInConfig := fun _ => file;
     lookupEnv := fun _ => None;
     castToInt := toInt;
     castToUint := fun _ => 0%N;
     setenv := fun _ _ => None;
     openFile := fun _ => None;
     splitHostPort := fun _ => split;
     newStorage := fun _ => Ok 1;
     statIsNotExist := fun _ => sessionMissing;
     readFile := fun _ => Ok "{}";
     newClient := fun _ _ _ _ => None;
     login := fun _ _ => Ok 7;
     makeQR := fun _ _ _ => Ok "png";
     writeFile := fun _ _ => None;
     startNetworkFollower := fun _ _ => None |}.

Definition settings : gmap string string :=
  {[ "dbAddress" := "db.example:5432"; "dbUsername" := "coupons";
     "sessionPath" := "/var/session"; "sessionPass" := "secret";
     "ndf" := "/etc/ndf.json"; "qrPath" := "/var/qr.png";
     "networkFollowerTimeout" := "30" ]}.

Definition thirty : string -> Z := fun _ => 30%Z.

Definition found : result string := Ok "/etc/xxnetwork/udb.yaml".

(** A machine with a database at [db.example:5432] and a session on
    disk, the same machine without a session, and a machine without a
    config file. *)
Definition production : @World nat nat :=
  machineWith found (Ok settings) thirty (Ok ("db.example", "5432")) false.

Definition firstBoot : @World nat nat :=
  machineWith found (Ok settings) thirty (Ok ("db.example", "5432")) true.

Definition noConfig : @World nat nat :=
  machineWith (Err "no config file found") (Ok settings) thirty
    (Ok ("db.example", "5432")) false.

Lemma production_configured :
  initializeConfigAndLogging production fresh
    = (configured settings, configTrace, Done tt).
Proof. vm_compute. reflexivity. Qed.

Lemma firstBoot_configured :
  initializeConfigAndLogging firstBoot fresh
    = (configured settings, configTrace, Done tt).
Proof. vm_compute. reflexivity. Qed.

Example production_run :
  trace (Run production fresh) =
    configTrace ++
    [ESplitHostPort "db.example:5432";
     ENewStorage {| Username := "coupons"; Password := ""; DBName := "";
                    Address := "db.example"; Port := "5432" |};
     EStat "/var/session"; ELogin "/var/session" "secret";
     EMakeQR 7 0 0; EWriteFile "/var/qr.png" "png";
     EStartNetworkFollower 7 30000000000;
     EAddGeneralRequestCallback (Rcb 7); ECouponsNew 1 7;
     ERegisterListener ZeroUser Text (New 1 7); ESelect].
Proof. vm_compute. reflexivity. Qed.

Lemma one_text_listener_on_zero_user_witness :
  In (EStartNetworkFollower 7 30000000000) (trace (Run production fresh)) /\
  startNetworkFollower production 7 30000000000 = None /\
  ending (Run production fresh) = Done tt /\
  exists s,
    registered (trace (Run production fresh)) = [(ZeroUser, Text, New s 7)].
Proof.
  assert (H1 : In (EStartNetworkFollower 7 30000000000)
                  (trace (Run production fresh))) by (vm_compute; tauto).
  assert (H2 : startNetworkFollower production 7 30000000000 = None)
    by reflexivity.
  split; [exact H1 |]. split; [exact H2 |].
  exact (proj2 (proj2 (one_text_listener_on_zero_user production fresh))
           7 30000000000%Z H1 H2).
Defined.

Lemma settings_after_initConfig_witness :
  configPath production fresh = Ok "/etc/xxnetwork/udb.yaml" /\
  readInConfig production "/etc/xxnetwork/udb.yaml" = Ok settings /\
  cfgFile (globals (initConfig production fresh))
    = "/etc/xxnetwork/udb.yaml" /\
  config (viper (globals (initConfig production fresh))) = settings.
Proof.
  assert (H1 : configPath production fresh = Ok "/etc/xxnetwork/udb.yaml")
    by reflexivity.
  assert (H2 : readInConfig production "/etc/xxnetwork/udb.yaml"
               = Ok settings) by reflexivity.
  split; [exact H1 |]. split; [exact H2 |].
  destruct (settings_after_initConfig production fresh _ _ H1 H2)
    as (_ & Hc & _ & _ & Hs & _).
  split; [exact Hc | exact Hs].
Defined.

Lemma missing_config_stops_run_witness :
  configPath noConfig fresh = Err "no config file found" /\
  ending (Run noConfig fresh)
    = Panic (FailedFindConfig "no config file found") /\
  forall q, ~ In (EOpenFile q) (trace (Run noConfig fresh)).
Proof.
  assert (H1 : configPath noConfig fresh = Err "no config file found")
    by reflexivity.
  destruct (missing_config_stops_run noConfig fresh _ H1)
    as (HR & _ & Hopen & _).
  split; [exact H1 |]. split; [| exact Hopen].
  rewrite HR. reflexivity.
Defined.

Lemma globals_settled_witness :
  initializeConfigAndLogging production fresh
    = (configured settings, configTrace, Done tt) /\
  globals (Run production fresh) = configured settings.
Proof.
  split; [exact production_configured |].
  exact (globals_settled production fresh _ _ production_configured).
Defined.

Lemma database_address_split_witness :
  getString production (viper (configured settings)) "dbAddress" <> "" /\
  splitHostPort production
    (getString production (viper (configured settings)) "dbAddress")
    = Ok ("db.example", "5432") /\
  exists t2,
    trace (Run production fresh) =
      configTrace ++ ESplitHostPort "db.example:5432"
        :: ENewStorage {| Username := "coupons"; Password := ""; DBName := "";
                          Address := "db.example"; Port := "5432" |}
        :: t2.
Proof.
  assert (H1 : getString production (viper (configured settings))
                 "dbAddress" <> "") by (vm_compute; discriminate).
  assert (H2 : splitHostPort production
                 (getString production (viper (configured settings))
                    "dbAddress") = Ok ("db.example", "5432"))
    by reflexivity.
  split; [exact H1 |]. split; [exact H2 |].
  destruct (database_address_split production fresh _ _ _ _
              production_configured H1 H2) as [t2 Ht2].
  exists t2. rewrite Ht2. vm_compute. reflexivity.
Defined.

Lemma existing_session_kept_witness :
  statIsNotExist production
    (getString production (viper (configured settings)) "sessionPath")
    = false /\
  forall ndf sp pw, ~ In (ENewClient ndf sp pw) (trace (Run production fresh)).
Proof.
  assert (H1 : statIsNotExist production
                 (getString production (viper (configured settings))
                    "sessionPath") = false) by reflexivity.
  split; [exact H1 |].
  exact (proj2 (existing_session_kept production fresh _ _
                  production_configured H1)).
Defined.

Lemma login_needs_session_and_storage_witness :
  In (ELogin "/var/session" "secret") (trace (Run firstBoot fresh)) /\
  (statIsNotExist firstBoot "/var/session" = false \/
   exists ndf,
     readFile firstBoot
       (getString firstBoot (viper (configured settings)) "ndf") = Ok ndf /\
     newClient firstBoot ndf "/var/session" "secret" "" = None).
Proof.
  assert (H1 : In (ELogin "/var/session" "secret")
                  (trace (Run firstBoot fresh))) by (vm_compute; tauto).
  split; [exact H1 |].
  exact (proj1 (proj2 (proj2
    (login_needs_session_and_storage firstBoot fresh _ _ _ _
       firstBoot_configured H1)))).
Defined.

Lemma completed_run_order_witness :
  ending (Run production fresh) = Done tt /\
  exists pre sp s cl qr,
    newStorage production sp = Ok s /\
    login production "/var/session" "secret" = Ok cl /\
    makeQR production cl 0 0 = Ok qr /\
    trace (Run production fresh) =
      configTrace ++ pre ++
      [ELogin "/var/session" "secret"; EMakeQR cl 0 0;
       EWriteFile "/var/qr.png" qr;
       EStartNetworkFollower cl (wrap64 (30 * 1000000000));
       EAddGeneralRequestCallback (Rcb cl); ECouponsNew s cl;
       ERegisterListener ZeroUser Text (New s cl); ESelect].
Proof.
  assert (H1 : ending (Run production fresh) = Done tt)
    by (vm_compute; reflexivity).
  split; [exact H1 |].
  destruct (completed_run_order production fresh _ _
              production_configured H1)
    as (pre & sp & s & cl & qr & Hs & Hl & Hq & Ht & _).
  exists pre, sp, s, cl, qr.
  split; [exact Hs |]. split; [exact Hl |]. split; [exact Hq |].
  exact Ht.
Defined.

Lemma qr_written_is_generated_witness :
  In (EWriteFile "/var/qr.png" "png") (trace (Run production fresh)) /\
  exists cl,
    login production "/var/session" "secret" = Ok cl /\
    makeQR production cl 0 0 = Ok "png".
Proof.
  assert (H1 : In (EWriteFile "/var/qr.png" "png")
                  (trace (Run production fresh))) by (vm_compute; tauto).
  split; [exact H1 |].
  exact (proj2 (qr_written_is_generated production fresh _ _ _ _
                  production_configured H1)).
Defined.

Lemma follower_timeout_witness :
  In (EStartNetworkFollower 7 30000000000) (trace (Run production fresh)) /\
  30000000000%Z = (30 * 1000000000)%Z.
Proof.
  assert (H1 : In (EStartNetworkFollower 7 30000000000)
                  (trace (Run production fresh))) by (vm_compute; tauto).
  split; [exact H1 |].
  destruct (follower_timeout production fresh _ _ _ _
              production_configured H1) as (_ & _ & Hsmall).
  apply Hsmall. vm_compute. split; discriminate.
Defined.

Lemma new_session_from_ndf_witness :
  In (ENewClient "{}" "/var/session" "secret") (trace (Run firstBoot fresh)) /\
  statIsNotExist firstBoot "/var/session" = true /\
  readFile firstBoot (getString firstBoot (viper (configured settings)) "ndf")
    = Ok "{}".
Proof.
  assert (H1 : In (ENewClient "{}" "/var/session" "secret")
                  (trace (Run firstBoot fresh))) by (vm_compute; tauto).
  split; [exact H1 |].
  exact (proj2 (proj2 (new_session_from_ndf firstBoot fresh _ _ _ _ _
                         firstBoot_configured H1))).
Defined.

End RunFacts.
